(** * The Nexus HTTP handler of [nexus/server.go], embedded and verified

    The Go code writes an HTTP response through an [http.ResponseWriter],
    logs through a [slog.Logger] and calls a user-supplied [Handler].  The
    embedding threads one explicit state through every function: the
    response writer together with the chronological list of every effect
    (header set, status line, body write, log record, call of the user
    handler).  A nil-pointer dereference or an index out of range is a
    panic, which ends the run without a completed response.

    What lives outside the repository (the Go standard library functions
    with a large behaviour of their own, the user handler, the codec, the
    clock) is an interface the definitions are parametric in. *)

From stdpp Require Import gmap strings list.
From Stdlib Require Import ZArith Ascii String Lia.

Open Scope Z_scope.
Open Scope string_scope.

(** ** Go values *)

(** [http.Header] is [map[string][]string]; [Stream.Header] is
    [map[string]string]. *)
Abbreviation Header := (gmap string (list string)).
Abbreviation StringMap := (gmap string string).

(** [type OperationState string]. *)
Abbreviation OperationState := string (only parsing).

(** [type HandlerErrorType string]. *)
Abbreviation HandlerErrorType := string (only parsing).

(** Modelled from the spec: the operation states of section 3, which
    another file of the package declares, "Enumerated: running, succeeded,
    failed, canceled" with the lowercase literals of section 6. *)
Definition OperationStateRunning : OperationState := "running".
Definition OperationStateSucceeded : OperationState := "succeeded".
Definition OperationStateFailed : OperationState := "failed".
Definition OperationStateCanceled : OperationState := "canceled".

Definition HandlerErrorTypeOperationCanceled : HandlerErrorType := "OPERATION_CANCELED".
Definition HandlerErrorTypeOperationFailed : HandlerErrorType := "OPERATION_FAILED".
Definition HandlerErrorTypeInternal : HandlerErrorType := "INTERNAL".
Definition HandlerErrorTypeApplicationError : HandlerErrorType := "APPLICATION_ERROR".
Definition HandlerErrorTypeApplicationTimeout : HandlerErrorType := "APPLICATION_TIMEOUT".
Definition HandlerErrorTypeUnauthenticated : HandlerErrorType := "UNAUTHENTICATED".
Definition HandlerErrorTypeUnauthorized : HandlerErrorType := "UNAUTHORIZED".
Definition HandlerErrorTypeBadRequest : HandlerErrorType := "BAD_REQUEST".
Definition HandlerErrorTypeNotFound : HandlerErrorType := "NOT_FOUND".
Definition HandlerErrorTypeNotImplemented : HandlerErrorType := "NOT_IMPLEMENTED".

(** The ten declared kinds, in the order of the [const] block. *)
Definition declaredHandlerErrorTypes : list HandlerErrorType :=
  [ HandlerErrorTypeOperationCanceled; HandlerErrorTypeOperationFailed;
    HandlerErrorTypeInternal; HandlerErrorTypeApplicationError;
    HandlerErrorTypeApplicationTimeout; HandlerErrorTypeUnauthenticated;
    HandlerErrorTypeUnauthorized; HandlerErrorTypeBadRequest;
    HandlerErrorTypeNotFound; HandlerErrorTypeNotImplemented ].

(** Modelled from the spec: the [Failure] record of section 3,
    "{ message: string, metadata?: mapping<string,string>, details?:
    opaque-bytes }", which another file of the package declares. *)
Record Failure := mkFailure {
  Message : string;
  Metadata : StringMap;
  Details : string
}.

(** [&Failure{Message: m}]: the other fields keep their zero value. *)
Definition FailureWithMessage (m : string) : Failure :=
  {| Message := m; Metadata := ∅; Details := "" |}.

(** Modelled from the spec: [OperationInfo] of section 3,
    "{ id: string, state: OperationState }". *)
Record OperationInfo := mkOperationInfo {
  ID : string;
  State : OperationState
}.

(** Modelled from the spec: [UnsuccessfulOperationError] of section 3,
    "{ state: OperationState, failure: Failure }".  The failure is held by
    value ([&unsuccessfulError.Failure] is never nil). *)
Record UnsuccessfulOperationError := mkUnsuccessfulOperationError {
  uoeState : OperationState;
  uoeFailure : Failure
}.

(** [HandlerError]: the failure is a pointer and may be nil. *)
Record HandlerError := mkHandlerError {
  Type_ : HandlerErrorType;
  heFailure : option Failure
}.

(** Go [error] values as the handler can meet them: the sentinel
    [ErrOperationStillRunning] (compared by identity), the two error
    structs of the package, any foreign error, and [fmt.Errorf("...: %w",
    cause)], which wraps its cause. *)
Inductive error :=
| ErrOperationStillRunning
| ErrUnsuccessfulOperation (e : UnsuccessfulOperationError)
| ErrHandlerError (e : HandlerError)
| ErrOther (msg : string)
| ErrWrap (msg : string) (cause : error).

(** [errors.As(err, &unsuccessfulError)]: the first error of the wrap chain
    that is a pointer to an [UnsuccessfulOperationError]. *)
Fixpoint errors_As_UnsuccessfulOperationError (err : error)
  : option UnsuccessfulOperationError :=
  match err with
  | ErrUnsuccessfulOperation e => Some e
  | ErrWrap _ cause => errors_As_UnsuccessfulOperationError cause
  | _ => None
  end.

(** [errors.As(err, &handlerError)]. *)
Fixpoint errors_As_HandlerError (err : error) : option HandlerError :=
  match err with
  | ErrHandlerError e => Some e
  | ErrWrap _ cause => errors_As_HandlerError cause
  | _ => None
  end.

(** [errors.Is(err, ErrOperationStillRunning)]. *)
Fixpoint errors_Is_ErrOperationStillRunning (err : error) : bool :=
  match err with
  | ErrOperationStillRunning => true
  | ErrWrap _ cause => errors_Is_ErrOperationStillRunning cause
  | _ => false
  end.

(** The [Error] method of [HandlerError]. *)
Definition HandlerError_Error (e : HandlerError) : string :=
  let typ := if (String.length (Type_ e) =? 0)%nat
             then HandlerErrorTypeInternal else Type_ e in
  match heFailure e with
  | Some f => "handler error (" +:+ typ +:+ "): " +:+ Message f
  | None => "handler error (" +:+ typ +:+ ")"
  end.

(** [newBadRequestError], at a format without verbs (every call of
    server.go passes a constant message). *)
Definition newBadRequestError (message : string) : HandlerError :=
  {| Type_ := HandlerErrorTypeBadRequest;
     heFailure := Some (FailureWithMessage message) |}.

(** An [io.Reader]: the bytes it yields, the error it ends with (nil at a
    clean EOF), and whether it also is an [io.Closer]. *)
Record Reader := mkReader {
  rd_data : string;
  rd_err : option error;
  rd_closer : bool
}.

(** Modelled from the spec: [Stream] of section 3,
    "{ header: mapping<string,string>, reader: byte-source }". *)
Record Stream := mkStream {
  sHeader : StringMap;
  sReader : Reader
}.

(** Values of other dynamic types that a handler may return as [any]. *)
Inductive Value :=
| VNil
| VString (s : string)
| VBytes (b : string).

(** A value of static type [any], split by the one type assertion the
    code makes (is the result a pointer to a [Stream]?); the pointer
    may be nil. *)
Inductive Any :=
| AnyStream (s : option Stream)
| AnyValue (v : Value).

(** The [Codec] interface, as far as the server uses it:
    [Serialize] takes an [any] and returns a [Stream] pointer and an
    error. *)
Record Codec := mkCodec {
  Serialize : Any -> option Stream * option error
}.

(** [EncodedStream]: a stream with the codec to decode it; the codec is an
    interface value and may be nil. *)
Record EncodedStream := mkEncodedStream {
  es_codec : option Codec;
  es_stream : Stream
}.

(** [context.Context] values the server builds: the request's own context
    and [context.WithTimeout(parent, d)]. *)
Inductive context_Context :=
| RequestContext
| WithTimeout (parent : context_Context) (timeout : Z).

Record StartOperationOptions := mkStartOperationOptions {
  RequestID : string;
  CallbackURL : string;
  soHeader : Header
}.

(** [Wait] is a [time.Duration]: a signed count of nanoseconds. *)
Record GetOperationResultOptions := mkGetOperationResultOptions {
  grHeader : Header;
  Wait : Z
}.

Record GetOperationInfoOptions := mkGetOperationInfoOptions {
  giHeader : Header
}.

Record CancelOperationOptions := mkCancelOperationOptions {
  coHeader : Header
}.

(** [OperationResponse[T]] with its two implementations. *)
Inductive OperationResponse :=
| OperationResponseSync (value : Any)
| OperationResponseAsync (OperationID : string).

(** The user's [Handler]; each method returns the Go pair (value, error).
    A nil interface value of [OperationResponse[any]] is [None]. *)
Record Handler := mkHandler {
  StartOperation :
    context_Context -> string -> EncodedStream -> StartOperationOptions ->
    option OperationResponse * option error;
  GetOperationResult :
    context_Context -> string -> string -> GetOperationResultOptions ->
    Any * option error;
  GetOperationInfo :
    context_Context -> string -> string -> GetOperationInfoOptions ->
    option OperationInfo * option error;
  CancelOperation :
    context_Context -> string -> string -> CancelOperationOptions -> option error
}.

(** A pointer to a [slog.Logger], by identity. *)
Inductive Logger := LoggerId (n : nat).

Inductive Level := LevelWarn | LevelError.

(** The value of one logging attribute. *)
Inductive Attr :=
| AttrString (s : string)
| AttrError (e : error).

(** ** The standard library, as far as it is simple enough to write out *)

(** [net/http] status codes. *)
Definition StatusOK : Z := 200.
Definition StatusCreated : Z := 201.
Definition StatusAccepted : Z := 202.
Definition StatusBadRequest : Z := 400.
Definition StatusUnauthorized : Z := 401.
Definition StatusForbidden : Z := 403.
Definition StatusNotFound : Z := 404.
Definition StatusRequestTimeout : Z := 408.
Definition StatusInternalServerError : Z := 500.
Definition StatusNotImplemented : Z := 501.

(** Modelled from the spec: the package constants that server.go uses and
    another file of the package declares; the values are those of
    section 6 (status table, headers, query parameters). *)
Definition statusOperationRunning : Z := 412.
Definition statusOperationFailed : Z := 424.
Definition headerContentType : string := "Content-Type".
Definition headerOperationState : string := "Nexus-Operation-State".
Definition headerRequestID : string := "Nexus-Request-Id".
Definition contentTypeJSON : string := "application/json".
Definition queryCallbackURL : string := "callback".
Definition queryWait : string := "wait".

Definition isLower (c : ascii) : bool :=
  ((97 <=? nat_of_ascii c) && (nat_of_ascii c <=? 122))%nat.
Definition isUpper (c : ascii) : bool :=
  ((65 <=? nat_of_ascii c) && (nat_of_ascii c <=? 90))%nat.
Definition isDigit (c : ascii) : bool :=
  ((48 <=? nat_of_ascii c) && (nat_of_ascii c <=? 57))%nat.

(** [textproto]'s [validHeaderFieldByte]: the token characters of RFC 7230. *)
Definition validHeaderFieldByte (c : ascii) : bool :=
  isLower c || isUpper c || isDigit c
  || existsb (Ascii.eqb c) (list_ascii_of_string "!#$%&'*+-.^_`|~").

(** The canonicalising loop: upper case at the start and after a dash,
    lower case elsewhere. *)
Fixpoint canonicalMIMEHeaderKey (upper : bool) (s : string) : string :=
  match s with
  | EmptyString => EmptyString
  | String c rest =>
      let c' :=
        if upper && isLower c then ascii_of_nat (nat_of_ascii c - 32)
        else if negb upper && isUpper c then ascii_of_nat (nat_of_ascii c + 32)
        else c in
      String c' (canonicalMIMEHeaderKey (Ascii.eqb c' "-") rest)
  end.

(** [textproto.CanonicalMIMEHeaderKey]: a key with a byte that is no token
    character is returned as it is. *)
Definition CanonicalMIMEHeaderKey (s : string) : string :=
  if forallb validHeaderFieldByte (list_ascii_of_string s)
  then canonicalMIMEHeaderKey true s else s.

(** [http.Header.Set] and [http.Header.Get]. *)
Definition Header_Set (h : Header) (key value : string) : Header :=
  <[CanonicalMIMEHeaderKey key := [value]]> h.

Definition Header_Get (h : Header) (key : string) : string :=
  match h !! CanonicalMIMEHeaderKey key with
  | Some (v :: _) => v
  | _ => ""
  end.

(** [url.Values.Get]: the first value of the key, or the empty string when
    the key has no value. *)
Definition Values_Get (v : Header) (key : string) : string :=
  match v !! key with
  | Some (x :: _) => x
  | _ => ""
  end.

(** [strings.HasPrefix]. *)
Definition strings_HasPrefix (s pre : string) : bool := String.prefix pre s.

(** ** The response writer, the effects and the monad of a request *)

(** The methods called on the user handler, with their arguments. *)
Inductive HandlerCall :=
| CallStartOperation (ctx : context_Context) (operation : string)
    (input : EncodedStream) (options : StartOperationOptions)
| CallGetOperationResult (ctx : context_Context) (operation operationID : string)
    (options : GetOperationResultOptions)
| CallGetOperationInfo (ctx : context_Context) (operation operationID : string)
    (options : GetOperationInfoOptions)
| CallCancelOperation (ctx : context_Context) (operation operationID : string)
    (options : CancelOperationOptions).

(** Everything a request handler does to the outside, in order. *)
Inductive Event :=
| EvHeaderSet (key value : string)
| EvWriteHeader (statusCode : Z)
| EvWrite (data : string)
| EvLog (l : Logger) (lvl : Level) (msg : string) (attrs : list (string * Attr))
| EvCall (c : HandlerCall)
| EvClose.

(** An [http.ResponseWriter] in the manner of [httptest.ResponseRecorder]:
    the live header map that [Header()] returns, whether the status line
    was written, the status code and the headers that went out with it,
    the body so far, and the error every [Write] meets (nil on a healthy
    connection and on a recorder). *)
Record ResponseWriter := mkResponseWriter {
  rw_header : Header;
  rw_wroteHeader : bool;
  rw_code : Z;
  rw_sent : Header;
  rw_body : string;
  rw_writeErr : option error
}.

Definition NewRecorder : ResponseWriter :=
  {| rw_header := ∅; rw_wroteHeader := false; rw_code := StatusOK;
     rw_sent := ∅; rw_body := ""; rw_writeErr := None |}.

(** [writer.Header().Set(key, value)]: the live map changes also after the
    status line, but what was sent does not. *)
Definition rw_HeaderSet (key value : string) (w : ResponseWriter) : ResponseWriter :=
  {| rw_header := Header_Set (rw_header w) key value;
     rw_wroteHeader := rw_wroteHeader w; rw_code := rw_code w;
     rw_sent := rw_sent w; rw_body := rw_body w; rw_writeErr := rw_writeErr w |}.

(** [writer.WriteHeader(statusCode)]: only the first call counts. *)
Definition rw_WriteHeader (statusCode : Z) (w : ResponseWriter) : ResponseWriter :=
  if rw_wroteHeader w then w
  else {| rw_header := rw_header w; rw_wroteHeader := true; rw_code := statusCode;
          rw_sent := rw_header w; rw_body := rw_body w;
          rw_writeErr := rw_writeErr w |}.

(** [writer.Write(data)]: writes the status line with 200 when none was
    written, then the bytes. *)
Definition rw_Write (data : string) (w : ResponseWriter)
  : ResponseWriter * option error :=
  let w1 := rw_WriteHeader StatusOK w in
  match rw_writeErr w1 with
  | Some e => (w1, Some e)
  | None =>
      ({| rw_header := rw_header w1; rw_wroteHeader := rw_wroteHeader w1;
          rw_code := rw_code w1; rw_sent := rw_sent w1;
          rw_body := rw_body w1 +:+ data; rw_writeErr := None |}, None)
  end.

Record St := mkSt {
  writer : ResponseWriter;
  effects : list Event
}.

Definition initial : St := {| writer := NewRecorder; effects := [] |}.

(** A run returns, or panics (nil dereference, index out of range). *)
Inductive Outcome (A : Type) :=
| Returned (a : A) (s : St)
| Panicked (msg : string) (s : St).
Arguments Returned {A} a s.
Arguments Panicked {A} msg s.

Definition M (A : Type) : Type := St -> Outcome A.

Definition ret {A} (a : A) : M A := fun s => Returned a s.

Definition bind {A B} (m : M A) (k : A -> M B) : M B :=
  fun s => match m s with
           | Returned a s' => k a s'
           | Panicked msg s' => Panicked msg s'
           end.

Definition panic {A} (msg : string) : M A := fun s => Panicked msg s.

Notation "x <- m ;; k" := (bind m (fun x => k))
  (at level 20, m at level 99, k at level 200, only parsing).
Notation "m ;;; k" := (bind m (fun _ => k))
  (at level 100, k at level 200, right associativity, only parsing).

Definition nilDereference : string :=
  "runtime error: invalid memory address or nil pointer dereference".
Definition indexOutOfRange : string :=
  "runtime error: index out of range".

(** [p != nil]. *)
Definition notNil {A} (p : option A) : bool :=
  match p with
  | Some _ => true
  | None => false
  end.

(** Reading through a pointer, or calling a method on an interface value. *)
Definition deref {A} (p : option A) : M A :=
  match p with
  | Some a => ret a
  | None => panic nilDereference
  end.

Definition emit (e : Event) : M unit :=
  fun s => Returned tt {| writer := writer s; effects := effects s ++ [e] |}.

Definition onWriter (f : ResponseWriter -> ResponseWriter) : M unit :=
  fun s => Returned tt {| writer := f (writer s); effects := effects s |}.

Definition writer_Header_Set (key value : string) : M unit :=
  emit (EvHeaderSet key value) ;;; onWriter (rw_HeaderSet key value).

Definition writer_WriteHeader (statusCode : Z) : M unit :=
  emit (EvWriteHeader statusCode) ;;; onWriter (rw_WriteHeader statusCode).

Definition writer_Write (data : string) : M (option error) :=
  emit (EvWrite data) ;;;
  fun s => let '(w, err) := rw_Write data (writer s) in
           Returned err {| writer := w; effects := effects s |}.

Definition logger_Error (l : Logger) (msg : string) (attrs : list (string * Attr))
  : M unit := emit (EvLog l LevelError msg attrs).

Definition logger_Warn (l : Logger) (msg : string) (attrs : list (string * Attr))
  : M unit := emit (EvLog l LevelWarn msg attrs).

(** [io.Copy(writer, src)]: the bytes of the source go out in one [Write]
    (none when the source is empty); a failed write ends the copy, else
    the error of the reader is the result. *)
Definition io_Copy (src : Reader) : M (option error) :=
  if (String.length (rd_data src) =? 0)%nat then ret (rd_err src)
  else
    werr <- writer_Write (rd_data src) ;;
    match werr with
    | Some e => ret (Some e)
    | None => ret (rd_err src)
    end.

(** What the client receives once the handler has returned: the server
    sends status 200 and the headers when the handler wrote nothing. *)
Record Response := mkResponse {
  StatusCode : Z;
  rHeader : Header;
  rBody : string
}.

Definition finish (w : ResponseWriter) : Response :=
  if rw_wroteHeader w
  then {| StatusCode := rw_code w; rHeader := rw_sent w; rBody := rw_body w |}
  else {| StatusCode := StatusOK; rHeader := rw_header w; rBody := "" |}.

(** A panic is recovered by the HTTP server, which drops the connection:
    there is no response. *)
Definition response_of {A} (o : Outcome A) : option Response :=
  match o with
  | Returned _ s => Some (finish (writer s))
  | Panicked _ _ => None
  end.

Definition effects_of {A} (o : Outcome A) : list Event :=
  match o with
  | Returned _ s => effects s
  | Panicked _ s => effects s
  end.

(** ** What the server takes from its environment

    The standard library functions whose behaviour is not written out
    here, the process-wide default logger and codec, and the clock: what
    [ctx.Err()] answers at the moment the user handler has returned. *)
Class Runtime := {
  (** [url.PathUnescape]; [None] is its error. *)
  url_PathUnescape : string -> option string;
  path_Dir : string -> string;
  path_Base : string -> string;
  path_Split : string -> string * string;
  (** [time.ParseDuration], in nanoseconds; [None] is its error. *)
  time_ParseDuration : string -> option Z;
  (** [json.Marshal] at a non-nil [Failure] pointer and at an
      [OperationInfo]. *)
  json_Marshal_Failure : Failure -> string + error;
  json_Marshal_OperationInfo : OperationInfo -> string + error;
  slog_Default : Logger;
  DefaultCodec : Codec;
  ctx_Err : context_Context -> option error
}.

(** [time.Minute]. *)
Definition time_Minute : Z := 60 * 1000000000.

(** [HandlerOptions]: the three interface and pointer fields may be nil. *)
Record HandlerOptions := mkHandlerOptions {
  opt_Handler : option Handler;
  opt_Logger : option Logger;
  opt_GetResultTimeout : Z;
  opt_Codec : option Codec
}.

Record baseHTTPHandler := mkBaseHTTPHandler {
  logger : Logger
}.

Record httpHandler := mkHttpHandler {
  base : baseHTTPHandler;
  options : HandlerOptions
}.

(** An [http.Request], as far as the handlers read it: the escaped path
    of the URL, its parsed query, the header and the body. *)
Record Request := mkRequest {
  EscapedPath : string;
  Query : Header;
  reqHeader : Header;
  Body : Reader
}.

(** [defer d] around a body: [d] runs when the body returns and when it
    panics. *)
Definition defer {A} (d : M unit) (body : M A) : M A :=
  fun s =>
    match body s with
    | Returned a s1 =>
        match d s1 with
        | Returned _ s2 => Returned a s2
        | Panicked msg s2 => Panicked msg s2
        end
    | Panicked msg s1 =>
        match d s1 with
        | Returned _ s2 => Panicked msg s2
        | Panicked msg' s2 => Panicked msg' s2
        end
    end.

(** [for k, v := range m { header.Set(k, v) }]. *)
Fixpoint setHeaders (kvs : list (string * string)) : M unit :=
  match kvs with
  | [] => ret tt
  | (k, v) :: rest => writer_Header_Set k v ;;; setHeaders rest
  end.

(** The loop of [startOperation] that keeps the [Content-] headers;
    [vs[0]] panics on an empty slice. *)
Fixpoint contentHeaders (kvs : list (string * list string)) (header : StringMap)
  : M StringMap :=
  match kvs with
  | [] => ret header
  | (k, vs) :: rest =>
      if strings_HasPrefix k "Content-" then
        match vs with
        | [] => panic indexOutOfRange
        | v :: _ => contentHeaders rest (<[k := v]> header)
        end
      else contentHeaders rest header
  end.

Section Server.
Context {rt : Runtime}.

(** *** [writeFailure] *)

(** Lines 238 to 253: marshal the failure when there is one, set the
    content type, write the status line, write the bytes. *)
Definition writeFailure_respond (h : baseHTTPHandler) (failure : option Failure)
    (statusCode : Z) : M unit :=
  let finishWith (bytes : string) : M unit :=
    writer_WriteHeader statusCode ;;;
    werr <- writer_Write bytes ;;
    match werr with
    | Some e => logger_Error (logger h) "failed to write response body"
                  [("error", AttrError e)]
    | None => ret tt
    end in
  match failure with
  | Some f =>
      match json_Marshal_Failure f with
      | inr err =>
          logger_Error (logger h) "failed to marshal failure" [("error", AttrError err)] ;;;
          writer_WriteHeader StatusInternalServerError
      | inl bytes =>
          writer_Header_Set headerContentType contentTypeJSON ;;;
          finishWith bytes
      end
  | None => finishWith ""
  end.

(** The [switch handlerError.Type] of lines 208 to 230; the status code
    starts as 500 and a kind without a case keeps it. *)
Definition handlerErrorStatus (h : baseHTTPHandler) (typ : HandlerErrorType) : M Z :=
  let statusCode := StatusInternalServerError in
  if String.eqb typ HandlerErrorTypeOperationCanceled then
    writer_Header_Set headerOperationState OperationStateCanceled ;;;
    ret statusOperationFailed
  else if String.eqb typ HandlerErrorTypeApplicationTimeout then ret 521
  else if String.eqb typ HandlerErrorTypeApplicationError then ret 520
  else if String.eqb typ HandlerErrorTypeBadRequest then ret StatusBadRequest
  else if String.eqb typ HandlerErrorTypeUnauthorized then ret StatusForbidden
  else if String.eqb typ HandlerErrorTypeUnauthenticated then ret StatusUnauthorized
  else if String.eqb typ HandlerErrorTypeNotFound then ret StatusNotFound
  else if String.eqb typ HandlerErrorTypeNotImplemented then ret StatusNotImplemented
  else if String.eqb typ HandlerErrorTypeInternal then ret StatusInternalServerError
  else
    logger_Error (logger h) "unexpected handler error type" [("type", AttrString typ)] ;;;
    ret statusCode.

Definition writeFailure (h : baseHTTPHandler) (err : error) : M unit :=
  match errors_As_UnsuccessfulOperationError err with
  | Some unsuccessfulError =>
      let operationState := uoeState unsuccessfulError in
      let failure := Some (uoeFailure unsuccessfulError) in
      let statusCode := statusOperationFailed in
      if String.eqb operationState OperationStateFailed
         || String.eqb operationState OperationStateCanceled
      then
        writer_Header_Set headerOperationState operationState ;;;
        writeFailure_respond h failure statusCode
      else
        logger_Error (logger h) "unexpected operation state"
          [("state", AttrString operationState)] ;;;
        writer_WriteHeader StatusInternalServerError
  | None =>
      match errors_As_HandlerError err with
      | Some handlerError =>
          let failure := heFailure handlerError in
          statusCode <- handlerErrorStatus h (Type_ handlerError) ;;
          writeFailure_respond h failure statusCode
      | None =>
          let failure := Some (FailureWithMessage "internal server error") in
          logger_Error (logger h) "handler failed" [("error", AttrError err)] ;;;
          writeFailure_respond h failure StatusInternalServerError
      end
  end.

(** *** [writeResult] *)

(** Lines 178 to 184: copy the headers of the stream, then its bytes. *)
Definition writeResult_stream (h : httpHandler) (stream : option Stream) : M unit :=
  st <- deref stream ;;
  setHeaders (map_to_list (sHeader st)) ;;;
  err <- io_Copy (sReader st) ;;
  match err with
  | Some e => logger_Error (logger (base h)) "failed to write response body"
                [("error", AttrError e)]
  | None => ret tt
  end.

(** [var stream *Stream] is nil when the first branch reads
    [stream.Reader]; the branch assigns [stream = s] only after that. *)
Definition writeResult (h : httpHandler) (result : Any) : M unit :=
  let stream : option Stream := None in
  match result with
  | AnyStream s =>
      st <- deref stream ;;
      let closer := if rd_closer (sReader st) then emit EvClose else ret tt in
      defer closer
        (let stream := s in
         writeResult_stream h stream)
  | AnyValue _ =>
      codec <- deref (opt_Codec (options h)) ;;
      match Serialize codec result with
      | (_, Some err) =>
          writeFailure (base h) (ErrWrap "failed to serialize handler result" err)
      | (stream, None) => writeResult_stream h stream
      end
  end.

(** *** The two operation responses *)

Definition OperationResponseSync_applyToHTTPResponse (value : Any)
    (handler : httpHandler) : M unit :=
  writeResult handler value.

Definition OperationResponseAsync_applyToHTTPResponse (OperationID : string)
    (handler : httpHandler) : M unit :=
  let info := {| ID := OperationID; State := OperationStateRunning |} in
  match json_Marshal_OperationInfo info with
  | inr err =>
      logger_Error (logger (base handler)) "failed to serialize operation info"
        [("error", AttrError err)] ;;;
      writer_WriteHeader StatusInternalServerError
  | inl bytes =>
      writer_Header_Set headerContentType contentTypeJSON ;;;
      writer_WriteHeader StatusCreated ;;;
      werr <- writer_Write bytes ;;
      match werr with
      | Some e => logger_Error (logger (base handler)) "failed to write response body"
                    [("error", AttrError e)]
      | None => ret tt
      end
  end.

Definition applyToHTTPResponse (r : OperationResponse) (handler : httpHandler)
  : M unit :=
  match r with
  | OperationResponseSync value => OperationResponseSync_applyToHTTPResponse value handler
  | OperationResponseAsync id => OperationResponseAsync_applyToHTTPResponse id handler
  end.

Definition badPath : error :=
  ErrHandlerError (newBadRequestError "failed to parse URL path").

(** *** The four endpoints *)

Definition startOperation (h : httpHandler) (request : Request) : M unit :=
  match url_PathUnescape (path_Base (EscapedPath request)) with
  | None => writeFailure (base h) badPath
  | Some operation =>
      let opts :=
        {| RequestID := Header_Get (reqHeader request) headerRequestID;
           CallbackURL := Values_Get (Query request) queryCallbackURL;
           soHeader := reqHeader request |} in
      header <- contentHeaders (map_to_list (reqHeader request)) ∅ ;;
      let stream :=
        {| es_codec := opt_Codec (options h);
           es_stream := {| sHeader := header; sReader := Body request |} |} in
      handler <- deref (opt_Handler (options h)) ;;
      emit (EvCall (CallStartOperation RequestContext operation stream opts)) ;;;
      match StartOperation handler RequestContext operation stream opts with
      | (_, Some err) => writeFailure (base h) err
      | (response, None) =>
          r <- deref response ;;
          applyToHTTPResponse r h
      end
  end.

(** Lines 318 to 329: the call of the user handler and what becomes of
    its result. *)
Definition getOperationResult_call (h : httpHandler) (ctx : context_Context)
    (operation operationID : string) (opts : GetOperationResultOptions) : M unit :=
  handler <- deref (opt_Handler (options h)) ;;
  emit (EvCall (CallGetOperationResult ctx operation operationID opts)) ;;;
  match GetOperationResult handler ctx operation operationID opts with
  | (_, Some err) =>
      if Z.ltb 0 (Wait opts) && notNil (ctx_Err ctx) then
        writer_WriteHeader StatusRequestTimeout
      else if errors_Is_ErrOperationStillRunning err then
        writer_WriteHeader statusOperationRunning
      else
        writeFailure (base h) err
  | (result, None) => writeResult h result
  end.

Definition getOperationResult (h : httpHandler) (request : Request) : M unit :=
  let '(prefix, operationIDEscaped) := path_Split (path_Dir (EscapedPath request)) in
  match url_PathUnescape operationIDEscaped with
  | None => writeFailure (base h) badPath
  | Some operationID =>
      match url_PathUnescape (path_Base prefix) with
      | None => writeFailure (base h) badPath
      | Some operation =>
          let waitStr := Values_Get (Query request) queryWait in
          if negb (String.eqb waitStr "") then
            match time_ParseDuration waitStr with
            | None =>
                logger_Warn (logger (base h)) "invalid wait duration query parameter"
                  [("wait", AttrString waitStr)] ;;;
                writeFailure (base h)
                  (ErrHandlerError (newBadRequestError "invalid wait query parameter"))
            | Some waitDuration =>
                let opts := {| grHeader := reqHeader request; Wait := waitDuration |} in
                let ctx := WithTimeout RequestContext (opt_GetResultTimeout (options h)) in
                getOperationResult_call h ctx operation operationID opts
            end
          else
            let opts := {| grHeader := reqHeader request; Wait := 0 |} in
            getOperationResult_call h RequestContext operation operationID opts
      end
  end.

Definition getOperationInfo (h : httpHandler) (request : Request) : M unit :=
  let '(prefix, operationIDEscaped) := path_Split (EscapedPath request) in
  match url_PathUnescape operationIDEscaped with
  | None => writeFailure (base h) badPath
  | Some operationID =>
      match url_PathUnescape (path_Base prefix) with
      | None => writeFailure (base h) badPath
      | Some operation =>
          let opts := {| giHeader := reqHeader request |} in
          handler <- deref (opt_Handler (options h)) ;;
          emit (EvCall (CallGetOperationInfo RequestContext operation operationID opts)) ;;;
          match GetOperationInfo handler RequestContext operation operationID opts with
          | (_, Some err) => writeFailure (base h) err
          | (info, None) =>
              let marshalled :=
                match info with
                | Some i => json_Marshal_OperationInfo i
                | None => inl "null"
                end in
              match marshalled with
              | inr err =>
                  writeFailure (base h) (ErrWrap "failed to marshal operation info" err)
              | inl bytes =>
                  writer_Header_Set headerContentType contentTypeJSON ;;;
                  werr <- writer_Write bytes ;;
                  match werr with
                  | Some e => logger_Error (logger (base h))
                                "failed to write response body" [("error", AttrError e)]
                  | None => ret tt
                  end
              end
          end
      end
  end.

Definition cancelOperation (h : httpHandler) (request : Request) : M unit :=
  let '(prefix, operationIDEscaped) := path_Split (path_Dir (EscapedPath request)) in
  match url_PathUnescape operationIDEscaped with
  | None => writeFailure (base h) badPath
  | Some operationID =>
      match url_PathUnescape (path_Base prefix) with
      | None => writeFailure (base h) badPath
      | Some operation =>
          let opts := {| coHeader := reqHeader request |} in
          handler <- deref (opt_Handler (options h)) ;;
          emit (EvCall (CallCancelOperation RequestContext operation operationID opts)) ;;;
          match CancelOperation handler RequestContext operation operationID opts with
          | Some err => writeFailure (base h) err
          | None => writer_WriteHeader StatusAccepted
          end
      end
  end.

(** *** [NewHTTPHandler]

    The router that the Go function returns dispatches to the four
    methods above; the value built here is the [httpHandler] they run
    on. *)
Definition NewHTTPHandler (opts : HandlerOptions) : httpHandler :=
  let opts1 :=
    match opt_Logger opts with
    | None => {| opt_Handler := opt_Handler opts; opt_Logger := Some slog_Default;
                 opt_GetResultTimeout := opt_GetResultTimeout opts;
                 opt_Codec := opt_Codec opts |}
    | Some _ => opts
    end in
  let opts2 :=
    if Z.eqb (opt_GetResultTimeout opts1) 0
    then {| opt_Handler := opt_Handler opts1; opt_Logger := opt_Logger opts1;
            opt_GetResultTimeout := time_Minute; opt_Codec := opt_Codec opts1 |}
    else opts1 in
  let opts3 :=
    match opt_Codec opts2 with
    | None => {| opt_Handler := opt_Handler opts2; opt_Logger := opt_Logger opts2;
                 opt_GetResultTimeout := opt_GetResultTimeout opts2;
                 opt_Codec := Some DefaultCodec |}
    | Some _ => opts2
    end in
  {| base := {| logger := slog_Default |}; options := opts3 |}.

End Server.

(** ** An instance of the environment

    Concrete versions of the library functions, to run the handlers on
    concrete requests.  They follow the documented behaviour of [path],
    [net/url], [time] and [encoding/json] on the inputs used below; the
    theorems about the server hold for every [Runtime] and do not depend
    on them. *)
Module Std.

Definition slash : ascii := "/"%char.
Definition quote : string := String "034"%char EmptyString.

(** [path.Split]: the split after the final slash. *)
Fixpoint splitAfterLastSlash (s : string) : option (string * string) :=
  match s with
  | EmptyString => None
  | String c rest =>
      match splitAfterLastSlash rest with
      | Some (dir, file) => Some (String c dir, file)
      | None => if Ascii.eqb c slash then Some (String c EmptyString, rest) else None
      end
  end.

Definition Split (p : string) : string * string :=
  match splitAfterLastSlash p with
  | Some r => r
  | None => ("", p)
  end.

Fixpoint stripTrailingSlashes (s : string) : string :=
  match s with
  | EmptyString => EmptyString
  | String c rest =>
      let rest' := stripTrailingSlashes rest in
      if Ascii.eqb c slash && String.eqb rest' "" then "" else String c rest'
  end.

(** [path.Base]. *)
Definition Base (p : string) : string :=
  if String.eqb p "" then "."
  else
    let p1 := stripTrailingSlashes p in
    let p2 := snd (Split p1) in
    if String.eqb p2 "" then "/" else p2.

Fixpoint splitSlash (s : string) : list string :=
  match s with
  | EmptyString => [""]
  | String c rest =>
      let l := splitSlash rest in
      if Ascii.eqb c slash then "" :: l
      else match l with
           | h :: t => String c h :: t
           | [] => [String c EmptyString]
           end
  end.

(** One element of the path in [path.Clean]; the stack has the last kept
    element first. *)
Definition cleanStep (rooted : bool) (stack : list string) (elem : string)
  : list string :=
  if String.eqb elem "" || String.eqb elem "." then stack
  else if String.eqb elem ".." then
    match stack with
    | top :: below => if String.eqb top ".." then elem :: stack else below
    | [] => if rooted then [] else [elem]
    end
  else elem :: stack.

Fixpoint joinSlash (l : list string) : string :=
  match l with
  | [] => ""
  | [x] => x
  | x :: rest => x +:+ "/" +:+ joinSlash rest
  end.

(** [path.Clean]. *)
Definition Clean (p : string) : string :=
  if String.eqb p "" then "."
  else
    let rooted := String.prefix "/" p in
    let body := joinSlash (rev (fold_left (cleanStep rooted) (splitSlash p) [])) in
    let out := if rooted then "/" +:+ body else body in
    if String.eqb out "" then "." else out.

(** [path.Dir]. *)
Definition Dir (p : string) : string := Clean (fst (Split p)).

Definition hexValue (c : ascii) : option nat :=
  let n := nat_of_ascii c in
  if isDigit c then Some (n - 48)%nat
  else if ((97 <=? n) && (n <=? 102))%nat then Some (n - 87)%nat
  else if ((65 <=? n) && (n <=? 70))%nat then Some (n - 55)%nat
  else None.

(** [url.PathUnescape]: every percent sign must start a two-digit
    hexadecimal escape. *)
Fixpoint PathUnescape (s : string) : option string :=
  match s with
  | EmptyString => Some EmptyString
  | String c rest =>
      if Ascii.eqb c "%" then
        match rest with
        | String a (String b rest') =>
            match hexValue a, hexValue b, PathUnescape rest' with
            | Some x, Some y, Some r => Some (String (ascii_of_nat (16 * x + y)) r)
            | _, _, _ => None
            end
        | _ => None
        end
      else option_map (String c) (PathUnescape rest)
  end.

(** [time]'s [leadingInt]: the digits at the front, [None] on overflow. *)
Fixpoint leadingInt (s : string) (x : Z) : option (Z * string) :=
  match s with
  | String c rest =>
      if isDigit c then
        if x >? 2 ^ 63 / 10 then None
        else
          let x' := x * 10 + Z.of_nat (nat_of_ascii c) - 48 in
          if x' >? 2 ^ 63 then None else leadingInt rest x'
      else Some (x, s)
  | EmptyString => Some (x, s)
  end.

(** [time]'s [leadingFraction]: digits beyond the precision are read and
    dropped. *)
Fixpoint leadingFraction (s : string) (x scale : Z) (overflow : bool)
  : Z * Z * string :=
  match s with
  | String c rest =>
      if isDigit c then
        if overflow then leadingFraction rest x scale overflow
        else if x >? (2 ^ 63 - 1) / 10 then leadingFraction rest x scale true
        else
          let y := x * 10 + Z.of_nat (nat_of_ascii c) - 48 in
          if y >? 2 ^ 63 then leadingFraction rest x scale true
          else leadingFraction rest y (scale * 10) overflow
      else (x, scale, s)
  | EmptyString => (x, scale, s)
  end.

(** The unit of a duration: the bytes up to the next digit or period. *)
Fixpoint leadingUnit (s : string) : string * string :=
  match s with
  | String c rest =>
      if Ascii.eqb c "." || isDigit c then ("", s)
      else let '(u, r) := leadingUnit rest in (String c u, r)
  | EmptyString => ("", s)
  end.

Definition unitMap (u : string) : option Z :=
  if String.eqb u "ns" then Some 1
  else if String.eqb u "us" then Some 1000
  else if String.eqb u "µs" then Some 1000
  else if String.eqb u "μs" then Some 1000
  else if String.eqb u "ms" then Some 1000000
  else if String.eqb u "s" then Some 1000000000
  else if String.eqb u "m" then Some (60 * 1000000000)
  else if String.eqb u "h" then Some (3600 * 1000000000)
  else None.

(** The loop of [time.ParseDuration] over the groups of number and unit.
    The fraction is scaled in exact arithmetic (Go computes it in
    [float64]).  Each round consumes at least the unit, so the length of
    the input is fuel enough. *)
Fixpoint parseGroups (fuel : nat) (s : string) (d : Z) : option Z :=
  if String.eqb s "" then Some d
  else
    match fuel with
    | O => None
    | S fuel' =>
        match s with
        | EmptyString => Some d
        | String c _ =>
            if negb (Ascii.eqb c "." || isDigit c) then None
            else
              match leadingInt s 0 with
              | None => None
              | Some (v, s1) =>
                  let pre := negb (String.length s =? String.length s1)%nat in
                  let '(f, scale, s2, post) :=
                    match s1 with
                    | String c1 s1' =>
                        if Ascii.eqb c1 "." then
                          let '(f, scale, s2) := leadingFraction s1' 0 1 false in
                          (f, scale, s2,
                           negb (String.length s1' =? String.length s2)%nat)
                        else (0, 1, s1, false)
                    | EmptyString => (0, 1, s1, false)
                    end in
                  if negb pre && negb post then None
                  else
                    let '(u, s3) := leadingUnit s2 in
                    if String.eqb u "" then None
                    else
                      match unitMap u with
                      | None => None
                      | Some unit =>
                          if v >? 2 ^ 63 / unit then None
                          else
                            let v1 := v * unit in
                            let v2 := if f >? 0 then v1 + f * unit / scale else v1 in
                            if (f >? 0) && (v2 >? 2 ^ 63) then None
                            else
                              let d' := d + v2 in
                              if d' >? 2 ^ 63 then None else parseGroups fuel' s3 d'
                      end
              end
        end
    end.

(** [time.ParseDuration]. *)
Definition ParseDuration (s : string) : option Z :=
  let '(neg, s1) :=
    match s with
    | String c rest =>
        if Ascii.eqb c "-" || Ascii.eqb c "+" then (Ascii.eqb c "-", rest)
        else (false, s)
    | EmptyString => (false, s)
    end in
  if String.eqb s1 "0" then Some 0
  else if String.eqb s1 "" then None
  else
    match parseGroups (String.length s1) s1 0 with
    | None => None
    | Some d =>
        if neg then Some (- d)
        else if d >? 2 ^ 63 - 1 then None
        else Some d
    end.

Definition hexDigit (n : nat) : ascii :=
  if (n <? 10)%nat then ascii_of_nat (48 + n) else ascii_of_nat (87 + n).

(** One byte of a JSON string as [encoding/json] writes it with HTML
    escaping on (bytes of multi-byte runes go through unchanged). *)
Definition jsonByte (c : ascii) : string :=
  let n := nat_of_ascii c in
  if Ascii.eqb c "034" then "\" +:+ quote
  else if Ascii.eqb c "\" then "\\"
  else if (n =? 10)%nat then "\n"
  else if (n =? 13)%nat then "\r"
  else if (n =? 9)%nat then "\t"
  else if (n <? 32)%nat || Ascii.eqb c "<" || Ascii.eqb c ">" || Ascii.eqb c "&"
  then "\u00" +:+ String (hexDigit (n / 16)) (String (hexDigit (n mod 16)) EmptyString)
  else String c EmptyString.

Fixpoint jsonEscape (s : string) : string :=
  match s with
  | EmptyString => EmptyString
  | String c rest => jsonByte c +:+ jsonEscape rest
  end.

Definition jsonString (s : string) : string := quote +:+ jsonEscape s +:+ quote.

Definition base64Alphabet : string :=
  "ABCDEFGHIJKLMNOPQRSTUVWXYZabcdefghijklmnopqrstuvwxyz0123456789+/".

Definition base64Char (n : nat) : ascii :=
  match String.get n base64Alphabet with
  | Some c => c
  | None => "="%char
  end.

(** Standard base64 with padding, as [encoding/json] writes a byte
    slice. *)
Fixpoint base64 (fuel : nat) (s : string) : string :=
  match fuel with
  | O => ""
  | S fuel' =>
      match s with
      | EmptyString => ""
      | String a EmptyString =>
          let x := nat_of_ascii a in
          String (base64Char (x / 4))
            (String (base64Char (x mod 4 * 16)) "==")
      | String a (String b EmptyString) =>
          let x := nat_of_ascii a in
          let y := nat_of_ascii b in
          String (base64Char (x / 4))
            (String (base64Char (x mod 4 * 16 + y / 16))
               (String (base64Char (y mod 16 * 4)) "="))
      | String a (String b (String c rest)) =>
          let x := nat_of_ascii a in
          let y := nat_of_ascii b in
          let z := nat_of_ascii c in
          String (base64Char (x / 4))
            (String (base64Char (x mod 4 * 16 + y / 16))
               (String (base64Char (y mod 16 * 4 + z / 64))
                  (String (base64Char (z mod 64)) (base64 fuel' rest))))
      end
  end.

(** Map keys are written in sorted order. *)
Fixpoint insertSorted (kv : string * string) (l : list (string * string))
  : list (string * string) :=
  match l with
  | [] => [kv]
  | x :: rest =>
      if String.leb (fst kv) (fst x) then kv :: l else x :: insertSorted kv rest
  end.

Definition sortedEntries (m : StringMap) : list (string * string) :=
  foldr insertSorted [] (map_to_list m).

Fixpoint jsonMembers (l : list (string * string)) : string :=
  match l with
  | [] => ""
  | [(k, v)] => jsonString k +:+ ":" +:+ jsonString v
  | (k, v) :: rest => jsonString k +:+ ":" +:+ jsonString v +:+ "," +:+ jsonMembers rest
  end.

(** Modelled from the spec: the JSON form of a [Failure] of section 6,
    "{ message: string, metadata?: object<string,string>, details?:
    base64-string }", the optional members left out when empty. *)
Definition Marshal_Failure (f : Failure) : string + error :=
  inl ("{" +:+ jsonString "message" +:+ ":" +:+ jsonString (Message f)
       +:+ (if bool_decide (Metadata f = ∅) then ""
            else "," +:+ jsonString "metadata" +:+ ":{"
                 +:+ jsonMembers (sortedEntries (Metadata f)) +:+ "}")
       +:+ (if String.eqb (Details f) "" then ""
            else "," +:+ jsonString "details" +:+ ":"
                 +:+ quote +:+ base64 (String.length (Details f)) (Details f) +:+ quote)
       +:+ "}").

(** Modelled from the spec: the JSON form of an [OperationInfo] of
    section 6, "{ id: string, state: running }". *)
Definition Marshal_OperationInfo (i : OperationInfo) : string + error :=
  inl ("{" +:+ jsonString "id" +:+ ":" +:+ jsonString (ID i) +:+ ","
       +:+ jsonString "state" +:+ ":" +:+ jsonString (State i) +:+ "}").

(** Modelled from the spec: the default codec of section 4.1, JSON with
    content type [application/json] for a value that is no stream, a
    stream passed through. *)
Definition JSONCodec : Codec :=
  {| Serialize := fun v =>
       match v with
       | AnyStream s => (s, None)
       | AnyValue v =>
           let body :=
             match v with
             | VNil => "null"
             | VString s => jsonString s
             | VBytes b => quote +:+ base64 (String.length b) b +:+ quote
             end in
           (Some {| sHeader := {[ headerContentType := contentTypeJSON ]};
                    sReader := {| rd_data := body; rd_err := None;
                                  rd_closer := false |} |}, None)
       end |}.

(** [context.DeadlineExceeded]. *)
Definition DeadlineExceeded : error := ErrOther "context deadline exceeded".

(** The runtime, given the answer of the clock. *)
Definition runtime (ctxErr : context_Context -> option error) : Runtime :=
  {| url_PathUnescape := PathUnescape;
     path_Dir := Dir;
     path_Base := Base;
     path_Split := Split;
     time_ParseDuration := ParseDuration;
     json_Marshal_Failure := Marshal_Failure;
     json_Marshal_OperationInfo := Marshal_OperationInfo;
     slog_Default := LoggerId 0;
     DefaultCodec := JSONCodec;
     ctx_Err := ctxErr |}.

(** No context is done. *)
Definition inTime : Runtime := runtime (fun _ => None).

(** Every context made by [context.WithTimeout] has passed its deadline. *)
Definition expired : Runtime :=
  runtime (fun ctx => match ctx with
                      | WithTimeout _ _ => Some DeadlineExceeded
                      | RequestContext => None
                      end).

End Std.

(** ** Handlers and requests to run the server on *)
Module Test.

(** [baseHTTPHandler{logger: slog.Default()}], as the tests of
    [writeFailure] build it. *)
Definition baseHandler : baseHTTPHandler := {| logger := LoggerId 0 |}.

(** A user handler in the manner of [asyncWithResultHandler]: it starts
    every operation asynchronously with the id "a/sync" and answers
    [GetOperationResult] with the given pair. *)
Definition handler (answer : Any * option error) : Handler :=
  {| StartOperation := fun _ _ _ _ => (Some (OperationResponseAsync "a/sync"), None);
     GetOperationResult := fun _ _ _ _ => answer;
     GetOperationInfo := fun _ _ operationID _ =>
       (Some {| ID := operationID; State := OperationStateRunning |}, None);
     CancelOperation := fun _ _ _ _ => None |}.

(** [NewHTTPHandler(HandlerOptions{Handler: handler})]. *)
Definition server (rt : Runtime) (answer : Any * option error) : httpHandler :=
  @NewHTTPHandler rt
    {| opt_Handler := Some (handler answer); opt_Logger := None;
       opt_GetResultTimeout := 0; opt_Codec := None |}.

(** [GET /f%2Fo%2Fo/a%2Fsync/result] with the given query. *)
Definition getResult (query : Header) : Request :=
  {| EscapedPath := "/f%2Fo%2Fo/a%2Fsync/result";
     Query := query;
     reqHeader := {[ "User-Agent" := ["Nexus-go-sdk/v0.0.0"] ]};
     Body := {| rd_data := ""; rd_err := None; rd_closer := true |} |}.

(** The context and the options that [getOperationResult] passes on for
    [wait=1s]. *)
Definition longPollContext : context_Context := WithTimeout RequestContext time_Minute.

Definition longPollOptions : GetOperationResultOptions :=
  {| grHeader := {[ "User-Agent" := ["Nexus-go-sdk/v0.0.0"] ]}; Wait := 1000000000 |}.

(** A stream in the manner of [requestIDEchoHandler]. *)
Definition octetStream : Stream :=
  {| sHeader := {[ "Content-Type" := "application/octet-stream" ]};
     sReader := {| rd_data := "direct"; rd_err := None; rd_closer := false |} |}.

End Test.

(** ** More handlers, codecs and requests *)
Module Fixture.

(** A runtime whose [json.Marshal] fails on every failure. *)
Definition brokenJSON : Runtime :=
  {| url_PathUnescape := Std.PathUnescape;
     path_Dir := Std.Dir;
     path_Base := Std.Base;
     path_Split := Std.Split;
     time_ParseDuration := Std.ParseDuration;
     json_Marshal_Failure := fun _ => inr (ErrOther "json: error calling MarshalJSON");
     json_Marshal_OperationInfo := Std.Marshal_OperationInfo;
     slog_Default := LoggerId 0;
     DefaultCodec := Std.JSONCodec;
     ctx_Err := fun _ => None |}.

(** A codec that fails with a bad-request error. *)
Definition failingCodec : Codec :=
  {| Serialize := fun _ =>
       (None, Some (ErrHandlerError (newBadRequestError "cannot encode"))) |}.

Definition userAgent : Header := {[ "User-Agent" := ["Nexus-go-sdk/v0.0.0"] ]}.

Definition noBody : Reader := {| rd_data := ""; rd_err := None; rd_closer := true |}.

Definition request (path : string) (query : Header) : Request :=
  {| EscapedPath := path; Query := query; reqHeader := userAgent; Body := noBody |}.

(** [POST /f%2Fo%2Fo] with a JSON body. *)
Definition start : Request :=
  {| EscapedPath := "/f%2Fo%2Fo"; Query := {[ "callback" := ["http://test/callback"] ]};
     reqHeader := {[ "Content-Type" := ["application/json"];
                     "User-Agent" := ["Nexus-go-sdk/v0.0.0"] ]};
     Body := {| rd_data := "null"; rd_err := None; rd_closer := true |} |}.

(** Options with a handler and nothing else. *)
Definition optionsOf (hd : option Handler) : HandlerOptions :=
  {| opt_Handler := hd; opt_Logger := None; opt_GetResultTimeout := 0;
     opt_Codec := None |}.

End Fixture.

(** ** Notions used in the statements *)

(** The status line is still to be written, and nothing of the body is. *)
Definition NotStarted (w : ResponseWriter) : Prop :=
  rw_wroteHeader w = false /\ rw_body w = "".

(** No call of the user handler among the events. *)
Definition isCall (e : Event) : bool :=
  match e with
  | EvCall _ => true
  | _ => false
  end.

Definition isWrite (e : Event) : bool :=
  match e with
  | EvWrite _ => true
  | _ => false
  end.

(** Every write of a non-empty body comes after a status line that
    itself comes after [Content-Type: application/json] was set. *)
Definition BodyAfterJSONHeader (evs : list Event) : Prop :=
  forall pre data post,
    evs = (pre ++ EvWrite data :: post)%list -> data <> "" ->
    exists a b c statusCode,
      pre = (a ++ EvHeaderSet headerContentType contentTypeJSON
               :: b ++ EvWriteHeader statusCode :: c)%list.

Definition noWrite (evs : list Event) : Prop :=
  forallb (fun e => negb (isWrite e)) evs = true.

(** The status of each kind of handler error as section 6 of the
    specification maps it, one line per kind: the table that the switch
    of [writeFailure] is compared with. *)
Definition section6Status (typ : HandlerErrorType) : option Z :=
  if String.eqb typ "BAD_REQUEST" then Some 400
  else if String.eqb typ "UNAUTHENTICATED" then Some 401
  else if String.eqb typ "UNAUTHORIZED" then Some 403
  else if String.eqb typ "NOT_FOUND" then Some 404
  else if String.eqb typ "INTERNAL" then Some 500
  else if String.eqb typ "NOT_IMPLEMENTED" then Some 501
  else if String.eqb typ "APPLICATION_ERROR" then Some 520
  else if String.eqb typ "APPLICATION_TIMEOUT" then Some 521
  else if String.eqb typ "OPERATION_CANCELED" then Some 424
  else if String.eqb typ "OPERATION_FAILED" then Some 424
  else None.

Definition noCall (evs : list Event) : Prop :=
  forallb (fun e => negb (isCall e)) evs = true.

(** The state once the user handler was called. *)
Definition afterCall (c : HandlerCall) (s : St) : St :=
  {| writer := writer s; effects := (effects s ++ [EvCall c])%list |}.

(** The options with another [Logger] field. *)
Definition withLogger (l : option Logger) (opts : HandlerOptions) : HandlerOptions :=
  {| opt_Handler := opt_Handler opts; opt_Logger := l;
     opt_GetResultTimeout := opt_GetResultTimeout opts;
     opt_Codec := opt_Codec opts |}.

(** The JSON object with the one member [message], for a message that
    needs no escaping. *)
Definition messageJSON (m : string) : string :=
  "{" +:+ Std.quote +:+ "message" +:+ Std.quote +:+ ":"
  +:+ Std.quote +:+ m +:+ Std.quote +:+ "}".

(** The body of the generic failure. *)
Definition internalServerErrorJSON : string := messageJSON "internal server error".

(** ** Notions about whole runs *)

Definition isWriteHeader (e : Event) : bool :=
  match e with
  | EvWriteHeader _ => true
  | _ => false
  end.




(** Every event that a computation adds, from any state and whether it
    returns or panics, satisfies [Q]. *)
Definition emitsOnly (Q : Event -> Prop) {A} (m : M A) : Prop :=
  forall s, exists evs,
    effects_of (m s) = (effects s ++ evs)%list /\ Forall Q evs.

(** A header set is one of the two that a failure response has. *)
Definition failureHeader (e : Event) : Prop :=
  match e with
  | EvHeaderSet k v =>
      (k = headerContentType /\ v = contentTypeJSON)
      \/ (k = headerOperationState /\ (v = "failed" \/ v = "canceled"))
  | _ => True
  end.

(** A log record goes to the logger [l]. *)
Definition loggedTo (l : Logger) (e : Event) : Prop :=
  match e with
  | EvLog l' _ _ _ => l' = l
  | _ => True
  end.

(** The failure that [writeFailure] picks for an error: that of the
    unsuccessful operation, that of the handler error (which may be nil),
    or the generic one. *)
Definition selectedFailure (err : error) : option Failure :=
  match errors_As_UnsuccessfulOperationError err with
  | Some e => Some (uoeFailure e)
  | None =>
      match errors_As_HandlerError err with
      | Some e => heFailure e
      | None => Some (FailureWithMessage "internal server error")
      end
  end.

(** The kinds that the switch of [writeFailure] has a case for, each
    with the status of its case. *)
Definition casedKinds : list (HandlerErrorType * Z) :=
  [ (HandlerErrorTypeOperationCanceled, 424);
    (HandlerErrorTypeApplicationTimeout, 521);
    (HandlerErrorTypeApplicationError, 520);
    (HandlerErrorTypeBadRequest, 400);
    (HandlerErrorTypeUnauthorized, 403);
    (HandlerErrorTypeUnauthenticated, 401);
    (HandlerErrorTypeNotFound, 404);
    (HandlerErrorTypeNotImplemented, 501);
    (HandlerErrorTypeInternal, 500) ].

(** Among the events that a computation adds, from any state, at most
    one satisfies [f]. *)
Definition emitsAtMostOne (f : Event -> bool) {A} (m : M A) : Prop :=
  forall s, exists evs,
    effects_of (m s) = (effects s ++ evs)%list
    /\ (List.length (List.filter f evs) <= 1)%nat.

(** The events that a computation adds, from any state, hold no call of
    the user handler, or hold one and begin with it. *)
Definition callsFirst {A} (m : M A) : Prop :=
  forall s, exists evs,
    effects_of (m s) = (effects s ++ evs)%list
    /\ (Forall (fun e => isCall e = false) evs
        \/ exists c tail,
             evs = EvCall c :: tail /\ Forall (fun e => isCall e = false) tail).

(** ** Sanity checks of the library models *)

Example Split_ex : Std.Split "/a/b%2Fc/id/result" = ("/a/b%2Fc/id/", "result").
Proof. reflexivity. Qed.

Example Dir_ex : Std.Dir "/svc/op/a%2Fsync/result" = "/svc/op/a%2Fsync".
Proof. reflexivity. Qed.

Example Base_ex : Std.Base "/svc/op/" = "op".
Proof. reflexivity. Qed.

Example PathUnescape_ex : Std.PathUnescape "a%2Fsync" = Some "a/sync".
Proof. reflexivity. Qed.

Example PathUnescape_bad : Std.PathUnescape "a%zz" = None.
Proof. reflexivity. Qed.

Example ParseDuration_ex1 : Std.ParseDuration "1s" = Some 1000000000.
Proof. vm_compute. reflexivity. Qed.

Example ParseDuration_ex2 : Std.ParseDuration "500ms" = Some 500000000.
Proof. vm_compute. reflexivity. Qed.

Example ParseDuration_ex3 : Std.ParseDuration "1h2m3.5s" = Some 3723500000000.
Proof. vm_compute. reflexivity. Qed.

Example ParseDuration_ex4 : Std.ParseDuration "-1.5µs" = Some (-1500).
Proof. vm_compute. reflexivity. Qed.

Example ParseDuration_bad1 : Std.ParseDuration "" = None.
Proof. reflexivity. Qed.

Example ParseDuration_bad2 : Std.ParseDuration "abc" = None.
Proof. vm_compute. reflexivity. Qed.

Example ParseDuration_bad3 : Std.ParseDuration "10" = None.
Proof. vm_compute. reflexivity. Qed.

Example CanonicalMIMEHeaderKey_ex :
  CanonicalMIMEHeaderKey "content-type" = "Content-Type"
  /\ CanonicalMIMEHeaderKey "nexus-operation-STATE" = "Nexus-Operation-State"
  /\ CanonicalMIMEHeaderKey "a b" = "a b".
Proof. repeat split; reflexivity. Qed.

Example base64_ex : Std.base64 4 "body" = "Ym9keQ==".
Proof. reflexivity. Qed.

(** ** Properties of the response writer and the monad *)

Lemma canonical_headerContentType :
  CanonicalMIMEHeaderKey headerContentType = headerContentType.
Proof. reflexivity. Qed.

Lemma canonical_headerOperationState :
  CanonicalMIMEHeaderKey headerOperationState = headerOperationState.
Proof. reflexivity. Qed.

Lemma Header_Get_Set (h : Header) (k v : string) :
  Header_Get (Header_Set h k v) k = v.
Proof. unfold Header_Get, Header_Set. by rewrite lookup_insert_eq. Qed.

Lemma Header_Get_Set_ne (h : Header) (k k' v : string) :
  CanonicalMIMEHeaderKey k <> CanonicalMIMEHeaderKey k' ->
  Header_Get (Header_Set h k v) k' = Header_Get h k'.
Proof. intros Hne. unfold Header_Get, Header_Set. by rewrite lookup_insert_ne. Qed.

Lemma String_eqb_neq (a b : string) : a <> b -> String.eqb a b = false.
Proof. intros H. by apply String.eqb_neq. Qed.

Arguments Header_Set : simpl never.
Arguments Header_Get : simpl never.
Arguments CanonicalMIMEHeaderKey : simpl never.
Arguments String.eqb : simpl nomatch.

(** The steps of a run are unfolded by [run]. *)
Ltac run :=
  cbv [bind ret panic emit onWriter deref writer_Header_Set writer_WriteHeader
       writer_Write logger_Error logger_Warn rw_Write rw_WriteHeader rw_HeaderSet
       response_of effects_of finish writer effects
       rw_header rw_wroteHeader rw_code rw_sent rw_body rw_writeErr].

(** What came out of a run is read off by [observe]. *)
Ltac observe :=
  cbv [response_of effects_of finish writer effects StatusCode rHeader rBody
       rw_header rw_wroteHeader rw_code rw_sent rw_body rw_writeErr];
  rewrite <- ?app_assoc; cbn [app].

Section Properties.
Context {rt : Runtime}.

(** What [writeFailure_respond] does on a healthy writer that has not
    started, when the failure marshals. *)
Lemma writeFailure_respond_ok (h : baseHTTPHandler) (f : Failure) (b : string)
    (statusCode : Z) (hdr sent : Header) (code : Z) (evs : list Event) :
  json_Marshal_Failure f = inl b ->
  writeFailure_respond h (Some f) statusCode
    {| writer := mkResponseWriter hdr false code sent "" None; effects := evs |}
  = Returned tt
      {| writer := mkResponseWriter (Header_Set hdr headerContentType contentTypeJSON)
                     true statusCode
                     (Header_Set hdr headerContentType contentTypeJSON) b None;
         effects := (((evs ++ [EvHeaderSet headerContentType contentTypeJSON])
                        ++ [EvWriteHeader statusCode]) ++ [EvWrite b])%list |}.
Proof.
  intros Hm. unfold writeFailure_respond. rewrite Hm. run. reflexivity.
Qed.

(** The same without a failure: no header, an empty write. *)
Lemma writeFailure_respond_nil (h : baseHTTPHandler) (statusCode : Z)
    (hdr sent : Header) (code : Z) (evs : list Event) :
  writeFailure_respond h None statusCode
    {| writer := mkResponseWriter hdr false code sent "" None; effects := evs |}
  = Returned tt
      {| writer := mkResponseWriter hdr true statusCode hdr "" None;
         effects := ((evs ++ [EvWriteHeader statusCode]) ++ [EvWrite ""])%list |}.
Proof. unfold writeFailure_respond. run. reflexivity. Qed.

(** When the failure does not marshal the status is 500, whatever status
    was chosen before. *)
Lemma writeFailure_respond_marshal_error (h : baseHTTPHandler) (f : Failure)
    (e : error) (statusCode : Z) (hdr sent : Header) (code : Z) (body : string)
    (we : option error) (evs : list Event) :
  json_Marshal_Failure f = inr e ->
  writeFailure_respond h (Some f) statusCode
    {| writer := mkResponseWriter hdr false code sent body we; effects := evs |}
  = Returned tt
      {| writer := mkResponseWriter hdr true StatusInternalServerError hdr body we;
         effects := ((evs ++ [EvLog (logger h) LevelError "failed to marshal failure"
                                [("error", AttrError e)]])
                       ++ [EvWriteHeader StatusInternalServerError])%list |}.
Proof. intros Hm. unfold writeFailure_respond. rewrite Hm. run. reflexivity. Qed.

End Properties.

(** A state in its fields, with the facts known about the writer put in. *)
Ltac fresh_state s :=
  let hdr := fresh "hdr" in
  let evs := fresh "evs" in
  destruct s as [[hdr ? ? ? ? ?] evs];
  repeat match goal with
         | H : NotStarted _ |- _ => destruct H
         end;
  cbn [writer effects rw_header rw_wroteHeader rw_code rw_sent rw_body rw_writeErr]
    in *;
  subst.

Section FailureWriter.
Context {rt : Runtime}.

(** ** The failure writer *)

(** C2. An [UnsuccessfulOperationError] whose state is neither "failed"
    nor "canceled": the failure writer logs the state at error level and
    writes the status line with 500 and nothing else; no header is set (the
    response carries the headers the writer had, so [Nexus-Operation-State]
    is what it was) and no body is written. *)
Theorem writeFailure_unexpected_operation_state
    (h : baseHTTPHandler) (err : error) (e : UnsuccessfulOperationError) (s : St) :
  errors_As_UnsuccessfulOperationError err = Some e ->
  uoeState e <> OperationStateFailed ->
  uoeState e <> OperationStateCanceled ->
  NotStarted (writer s) ->
  effects_of (writeFailure h err s)
  = (effects s ++ [ EvLog (logger h) LevelError "unexpected operation state"
                      [("state", AttrString (uoeState e))];
                    EvWriteHeader 500 ])%list
  /\ response_of (writeFailure h err s)
     = Some {| StatusCode := 500; rHeader := rw_header (writer s); rBody := "" |}.
Proof.
  intros Has Hf Hc Hs. unfold writeFailure. rewrite Has.
  rewrite (String_eqb_neq _ _ Hf), (String_eqb_neq _ _ Hc). cbn [orb].
  fresh_state s. run. rewrite <- app_assoc. split; reflexivity.
Qed.

(** C6. An [UnsuccessfulOperationError] whose state is "failed" or
    "canceled", with a failure that marshals to [b]: the response has
    status 424, [Nexus-Operation-State] is the state literal,
    [Content-Type] is [application/json] and the body is [b]; the two
    headers are set before the status line, the body is written last. *)
Theorem writeFailure_unsuccessful_operation
    (h : baseHTTPHandler) (err : error) (e : UnsuccessfulOperationError)
    (b : string) (s : St) :
  errors_As_UnsuccessfulOperationError err = Some e ->
  uoeState e = OperationStateFailed \/ uoeState e = OperationStateCanceled ->
  json_Marshal_Failure (uoeFailure e) = inl b ->
  NotStarted (writer s) ->
  rw_writeErr (writer s) = None ->
  exists r,
    response_of (writeFailure h err s) = Some r
    /\ StatusCode r = 424
    /\ Header_Get (rHeader r) headerOperationState = uoeState e
    /\ (uoeState e = "failed" \/ uoeState e = "canceled")
    /\ Header_Get (rHeader r) headerContentType = contentTypeJSON
    /\ rBody r = b
    /\ effects_of (writeFailure h err s)
       = (effects s ++ [ EvHeaderSet headerOperationState (uoeState e);
                         EvHeaderSet headerContentType contentTypeJSON;
                         EvWriteHeader 424;
                         EvWrite b ])%list.
Proof.
  intros Has Hst Hm Hs Hw. unfold writeFailure. rewrite Has.
  assert (String.eqb (uoeState e) OperationStateFailed
          || String.eqb (uoeState e) OperationStateCanceled = true) as ->.
  { destruct Hst as [-> | ->]; reflexivity. }
  fresh_state s.
  cbv [bind writer_Header_Set emit onWriter writer effects rw_HeaderSet
       rw_header rw_wroteHeader rw_code rw_sent rw_body rw_writeErr].
  rewrite (writeFailure_respond_ok _ _ _ _ _ _ _ _ Hm).
  eexists. split; [reflexivity|]. observe.
  split; [reflexivity|]. split.
  { rewrite Header_Get_Set_ne by (vm_compute; discriminate).
    apply Header_Get_Set. }
  split; [exact Hst|]. split; [apply Header_Get_Set|].
  split; reflexivity.
Qed.

(** The switch on the kind, at each declared kind but
    [OPERATION_FAILED]: the status of section 6; only [OPERATION_CANCELED]
    has an effect, the state header. *)
Lemma handlerErrorStatus_declared (h : baseHTTPHandler) (typ : HandlerErrorType)
    (s : St) :
  In typ declaredHandlerErrorTypes ->
  typ <> HandlerErrorTypeOperationFailed ->
  exists code,
    section6Status typ = Some code
    /\ handlerErrorStatus h typ s
       = if String.eqb typ HandlerErrorTypeOperationCanceled
         then Returned code
                {| writer := rw_HeaderSet headerOperationState OperationStateCanceled
                               (writer s);
                   effects := (effects s ++ [EvHeaderSet headerOperationState
                                               OperationStateCanceled])%list |}
         else Returned code s.
Proof.
  intros Hin Hne. destruct s as [w evs].
  cbn [In declaredHandlerErrorTypes] in Hin.
  repeat (destruct Hin as [<- | Hin]; [try congruence; eexists; split; reflexivity |]);
    contradiction.
Qed.

(** The switch at [OPERATION_FAILED]: no case; the default branch logs
    and the status stays 500. *)
Lemma handlerErrorStatus_operation_failed (h : baseHTTPHandler) (s : St) :
  handlerErrorStatus h HandlerErrorTypeOperationFailed s
  = Returned 500
      {| writer := writer s;
         effects := (effects s ++ [EvLog (logger h) LevelError
                                     "unexpected handler error type"
                                     [("type", AttrString "OPERATION_FAILED")]])%list |}.
Proof. reflexivity. Qed.

(** A handler error of a declared kind other than [OPERATION_FAILED],
    with no failure or one that marshals: the status of section 6; the
    body is empty without a failure and the marshalled failure with one. *)
Lemma writeFailure_handler_error_declared
    (h : baseHTTPHandler) (err : error) (e : HandlerError) (s : St) :
  errors_As_UnsuccessfulOperationError err = None ->
  errors_As_HandlerError err = Some e ->
  In (Type_ e) declaredHandlerErrorTypes ->
  Type_ e <> HandlerErrorTypeOperationFailed ->
  (forall f, heFailure e = Some f -> exists b, json_Marshal_Failure f = inl b) ->
  NotStarted (writer s) ->
  rw_writeErr (writer s) = None ->
  exists r,
    response_of (writeFailure h err s) = Some r
    /\ section6Status (Type_ e) = Some (StatusCode r)
    /\ match heFailure e with
       | Some f => json_Marshal_Failure f = inl (rBody r)
                   /\ Header_Get (rHeader r) headerContentType = contentTypeJSON
       | None => rBody r = ""
       end.
Proof.
  intros Hu He Hin Hne Hm Hs Hw. unfold writeFailure. rewrite Hu, He.
  destruct (handlerErrorStatus_declared h (Type_ e) s Hin Hne) as (code & Hcode & Heq).
  unfold bind at 1. rewrite Heq, Hcode. fresh_state s.
  destruct (heFailure e) as [f|] eqn:Hf.
  - destruct (Hm f eq_refl) as [b Hb].
    destruct (String.eqb (Type_ e) HandlerErrorTypeOperationCanceled);
      cbv [writer effects rw_HeaderSet rw_header rw_wroteHeader rw_code rw_sent
           rw_body rw_writeErr];
      rewrite (writeFailure_respond_ok _ _ _ _ _ _ _ _ Hb);
      eexists; (split; [reflexivity|]); observe;
      (split; [reflexivity|]); (split; [exact Hb | apply Header_Get_Set]).
  - destruct (String.eqb (Type_ e) HandlerErrorTypeOperationCanceled);
      cbv [writer effects rw_HeaderSet rw_header rw_wroteHeader rw_code rw_sent
           rw_body rw_writeErr];
      rewrite writeFailure_respond_nil;
      eexists; (split; [reflexivity|]); observe; split; reflexivity.
Qed.

(** C3. A handler error of kind [OPERATION_FAILED]: section 6 maps the
    kind to 424, and the failure writer answers 500 after logging
    "unexpected handler error type", whether the error carries a failure
    or not and whether the failure marshals or not. *)
Theorem writeFailure_operation_failed_status
    (h : baseHTTPHandler) (err : error) (e : HandlerError) (s : St) :
  errors_As_UnsuccessfulOperationError err = None ->
  errors_As_HandlerError err = Some e ->
  Type_ e = HandlerErrorTypeOperationFailed ->
  NotStarted (writer s) ->
  rw_writeErr (writer s) = None ->
  section6Status (Type_ e) = Some 424
  /\ exists r tail,
       response_of (writeFailure h err s) = Some r
       /\ StatusCode r = 500
       /\ effects_of (writeFailure h err s)
          = (effects s ++ EvLog (logger h) LevelError "unexpected handler error type"
                            [("type", AttrString "OPERATION_FAILED")] :: tail)%list.
Proof.
  intros Hu He Ht Hs Hw. rewrite Ht. split; [reflexivity|].
  unfold writeFailure. rewrite Hu, He, Ht.
  unfold bind. rewrite handlerErrorStatus_operation_failed. fresh_state s.
  destruct (heFailure e) as [f|].
  - destruct (json_Marshal_Failure f) as [b|me] eqn:Hb.
    + rewrite !(writeFailure_respond_ok _ _ _ _ _ _ _ _ Hb).
      do 2 eexists. observe. repeat split; reflexivity.
    + rewrite !(writeFailure_respond_marshal_error _ _ _ _ _ _ _ _ _ _ Hb).
      do 2 eexists. observe. repeat split; reflexivity.
  - rewrite !writeFailure_respond_nil.
    do 2 eexists. observe. repeat split; reflexivity.
Qed.

(** C5. An error that is neither an [UnsuccessfulOperationError] nor a
    [HandlerError]: the response has status 500, content type JSON and the
    body [{"message":"internal server error"}], as [json.Marshal] gives it
    for the failure with that message.  The error itself goes to the log
    only: the response is the same for every such error, so nothing of the
    original error is in the body. *)
Theorem writeFailure_generic_error
    (h : baseHTTPHandler) (err : error) (s : St) :
  errors_As_UnsuccessfulOperationError err = None ->
  errors_As_HandlerError err = None ->
  json_Marshal_Failure (FailureWithMessage "internal server error")
  = inl internalServerErrorJSON ->
  NotStarted (writer s) ->
  rw_writeErr (writer s) = None ->
  response_of (writeFailure h err s)
  = Some {| StatusCode := 500;
            rHeader := Header_Set (rw_header (writer s)) headerContentType contentTypeJSON;
            rBody := internalServerErrorJSON |}
  /\ effects_of (writeFailure h err s)
     = (effects s ++ [ EvLog (logger h) LevelError "handler failed"
                         [("error", AttrError err)];
                       EvHeaderSet headerContentType contentTypeJSON;
                       EvWriteHeader 500;
                       EvWrite internalServerErrorJSON ])%list
  /\ forall err',
       errors_As_UnsuccessfulOperationError err' = None ->
       errors_As_HandlerError err' = None ->
       response_of (writeFailure h err' s) = response_of (writeFailure h err s).
Proof.
  intros Hu He Hm Hs Hw.
  assert (forall x, errors_As_UnsuccessfulOperationError x = None ->
                    errors_As_HandlerError x = None ->
                    writeFailure h x s
                    = Returned tt
                        {| writer :=
                             mkResponseWriter
                               (Header_Set (rw_header (writer s)) headerContentType
                                  contentTypeJSON)
                               true 500
                               (Header_Set (rw_header (writer s)) headerContentType
                                  contentTypeJSON)
                               internalServerErrorJSON None;
                           effects :=
                             (effects s ++ [ EvLog (logger h) LevelError "handler failed"
                                               [("error", AttrError x)];
                                             EvHeaderSet headerContentType contentTypeJSON;
                                             EvWriteHeader 500;
                                             EvWrite internalServerErrorJSON ])%list |})
    as Hrun.
  { intros x Hxu Hxe. unfold writeFailure. rewrite Hxu, Hxe. fresh_state s.
    cbv [bind logger_Error emit writer effects].
    rewrite (writeFailure_respond_ok _ _ _ _ _ _ _ _ Hm).
    rewrite <- !app_assoc. reflexivity. }
  rewrite (Hrun err Hu He). split; [reflexivity|]. split; [reflexivity|].
  intros err' Hu' He'. rewrite (Hrun err' Hu' He'). reflexivity.
Qed.

(** *** The order of header, status line and body *)

Lemma BodyAfterJSONHeader_app_noWrite (p t : list Event) :
  noWrite p -> BodyAfterJSONHeader t -> BodyAfterJSONHeader (p ++ t).
Proof.
  unfold noWrite. induction p as [|x p IH]; intros Hp Ht; [exact Ht|].
  cbn [forallb] in Hp. apply andb_prop in Hp as [Hx Hp].
  intros pre data post Heq Hne. destruct pre as [|y pre]; cbn [app] in Heq.
  - injection Heq as -> _. discriminate Hx.
  - injection Heq as <- Heq.
    destruct (IH Hp Ht pre data post Heq Hne) as (a & b & c & code & ->).
    by exists (x :: a), b, c, code.
Qed.

(** Closes [BodyAfterJSONHeader] on a list that is written out. *)
Ltac body_after_header :=
  let pre := fresh "pre" in
  let Heq := fresh "Heq" in
  intros pre ? ? Heq ?;
  do 6 (try (destruct pre as [|? pre]; cbn [app] in Heq;
             [ try discriminate Heq;
               try (injection Heq; intros; subst;
                    first [ congruence | by eexists [], [], [], _ ])
             | try discriminate Heq; injection Heq as <- Heq ])).

Lemma writeFailure_respond_order (h : baseHTTPHandler) (failure : option Failure)
    (statusCode : Z) (s : St) :
  exists t,
    effects_of (writeFailure_respond h failure statusCode s) = (effects s ++ t)%list
    /\ BodyAfterJSONHeader t.
Proof.
  destruct s as [[hdr wh code sent body we] evs]. unfold writeFailure_respond.
  destruct failure as [f|]; [destruct (json_Marshal_Failure f) as [b|me]|];
    destruct wh, we; run; observe; eexists; (split; [reflexivity|]);
    body_after_header.
Qed.

Lemma handlerErrorStatus_effects (h : baseHTTPHandler) (typ : HandlerErrorType)
    (s : St) :
  exists code w p,
    handlerErrorStatus h typ s
    = Returned code {| writer := w; effects := (effects s ++ p)%list |}
    /\ noWrite p.
Proof.
  destruct s as [w evs]. unfold handlerErrorStatus.
  repeat match goal with
         | |- context [if String.eqb typ ?k then _ else _] =>
             destruct (String.eqb typ k)
         end; run;
    first [ by eexists _, _, [_]
          | exists 521, w, []; by rewrite app_nil_r
          | exists 520, w, []; by rewrite app_nil_r
          | eexists _, w, []; by rewrite app_nil_r ].
Qed.

(** C8. In every run of the failure writer, from any state of the writer
    and for any error: each write of a non-empty body comes after a status
    line that itself comes after [Content-Type: application/json] was
    set. *)
Theorem writeFailure_content_type_before_body
    (h : baseHTTPHandler) (err : error) (s : St) :
  exists evs,
    effects_of (writeFailure h err s) = (effects s ++ evs)%list
    /\ BodyAfterJSONHeader evs.
Proof.
  unfold writeFailure.
  destruct (errors_As_UnsuccessfulOperationError err) as [e|].
  - destruct (String.eqb (uoeState e) OperationStateFailed
              || String.eqb (uoeState e) OperationStateCanceled).
    + cbv [bind writer_Header_Set emit onWriter].
      edestruct (writeFailure_respond_order h (Some (uoeFailure e)) statusOperationFailed)
        as (t & Ht & Hord).
      rewrite Ht. cbn [effects]. rewrite <- app_assoc.
      eexists; split; [reflexivity|].
      apply BodyAfterJSONHeader_app_noWrite; [reflexivity | exact Hord].
    + destruct s as [w evs]. run. observe.
      destruct (rw_wroteHeader w); eexists; (split; [reflexivity|]); body_after_header.
  - destruct (errors_As_HandlerError err) as [e|].
    + unfold bind.
      destruct (handlerErrorStatus_effects h (Type_ e) s) as (code & w & p & -> & Hp).
      edestruct (writeFailure_respond_order h (heFailure e) code) as (t & Ht & Hord).
      rewrite Ht. cbn [effects]. rewrite <- app_assoc.
      eexists; split; [reflexivity|].
      by apply BodyAfterJSONHeader_app_noWrite.
    + cbv [bind logger_Error emit].
      edestruct (writeFailure_respond_order h
                   (Some (FailureWithMessage "internal server error"))
                   StatusInternalServerError) as (t & Ht & Hord).
      rewrite Ht. cbn [effects]. rewrite <- app_assoc.
      eexists; split; [reflexivity|].
      apply BodyAfterJSONHeader_app_noWrite; [reflexivity | exact Hord].
Qed.

End FailureWriter.

Section ResultWriter.
Context {rt : Runtime}.

(** ** Results and operation responses *)

(** C4. A handler result that is a [Stream] pointer, nil or not:
    [writeResult] reads [stream.Reader] through its own variable [stream],
    which is still nil at that point, and panics.  No header of the
    stream is copied and no byte of it is written; the run ends without a
    response. *)
Theorem writeResult_stream_panics (h : httpHandler) (st : option Stream) (s : St) :
  writeResult h (AnyStream st) s = Panicked nilDereference s
  /\ response_of (writeResult h (AnyStream st) s) = None
  /\ effects_of (writeResult h (AnyStream st) s) = effects s.
Proof. repeat split; reflexivity. Qed.

(** The loop over the headers of a stream: one [Set] per entry. *)
Lemma setHeaders_run (kvs : list (string * string)) (s : St) :
  setHeaders kvs s
  = Returned tt
      {| writer := foldl (fun w kv => rw_HeaderSet kv.1 kv.2 w) (writer s) kvs;
         effects := (effects s ++ map (fun kv => EvHeaderSet kv.1 kv.2) kvs)%list |}.
Proof.
  revert s. induction kvs as [|[k v] kvs IH]; intros [w evs].
  - cbn. by rewrite app_nil_r.
  - cbn [setHeaders]. cbv [bind writer_Header_Set emit onWriter]. rewrite IH.
    cbn [writer effects foldl map fst snd]. by rewrite <- app_assoc.
Qed.

Lemma foldl_rw_HeaderSet (kvs : list (string * string)) (w : ResponseWriter) :
  let w' := foldl (fun w kv => rw_HeaderSet kv.1 kv.2 w) w kvs in
  rw_wroteHeader w' = rw_wroteHeader w /\ rw_body w' = rw_body w
  /\ rw_writeErr w' = rw_writeErr w
  /\ rw_header w' = foldl (fun h kv => Header_Set h kv.1 kv.2) (rw_header w) kvs.
Proof.
  revert w. induction kvs as [|[k v] kvs IH]; intros w; [by cbn|].
  cbn [foldl fst snd]. destruct (IH (rw_HeaderSet k v w)) as (H1 & H2 & H3 & H4).
  cbn zeta in *. rewrite H1, H2, H3, H4. by destruct w.
Qed.

(** The part of [writeResult] after the branch, at a stream that is
    there, on a healthy writer that has not started: status 200, each
    header of the stream set in turn, the bytes of the stream as the
    body.  This is what a value that goes through the codec gets. *)
Lemma writeResult_stream_copies (h : httpHandler) (st : Stream) (s : St) :
  NotStarted (writer s) ->
  rw_writeErr (writer s) = None ->
  response_of (writeResult_stream h (Some st) s)
  = Some {| StatusCode := 200;
            rHeader := foldl (fun hd kv => Header_Set hd kv.1 kv.2)
                         (rw_header (writer s)) (map_to_list (sHeader st));
            rBody := rd_data (sReader st) |}.
Proof.
  intros [Hs Hb] Hw. unfold writeResult_stream. cbv [deref bind ret].
  rewrite setHeaders_run.
  destruct (foldl_rw_HeaderSet (map_to_list (sHeader st)) (writer s))
    as (H1 & H2 & H3 & H4). cbn zeta in *.
  set (w' := foldl _ (writer s) _) in *.
  destruct w' as [hdr' wh' code' sent' body' we'].
  cbn [rw_wroteHeader rw_body rw_writeErr rw_header] in *.
  rewrite Hs in H1. rewrite Hb in H2. rewrite Hw in H3. subst.
  unfold io_Copy.
  destruct (rd_data (sReader st)) as [|c data] eqn:Hdata.
  - cbn [String.length Nat.eqb]. destruct (rd_err (sReader st)); reflexivity.
  - cbn [String.length Nat.eqb]. run. destruct (rd_err (sReader st)); reflexivity.
Qed.

(** The loop over the request headers has no effect of its own. *)
Lemma contentHeaders_state (kvs : list (string * list string)) (acc : StringMap)
    (s : St) :
  (exists header, contentHeaders kvs acc s = Returned header s)
  \/ contentHeaders kvs acc s = Panicked indexOutOfRange s.
Proof.
  revert acc. induction kvs as [|[k vs] kvs IH]; intros acc; cbn [contentHeaders].
  - left. by eexists.
  - destruct (strings_HasPrefix k "Content-"); [destruct vs as [|v vs]|]; auto.
Qed.

(** Start, for a user handler that answers with [OperationResponseAsync]:
    the call is recorded and the response is that of
    [OperationResponseAsync.applyToHTTPResponse]. *)
Lemma startOperation_async (h : httpHandler) (hd : Handler) (request : Request)
    (operation operationID : string) (header : StringMap) (s : St) :
  url_PathUnescape (path_Base (EscapedPath request)) = Some operation ->
  contentHeaders (map_to_list (reqHeader request)) ∅ s = Returned header s ->
  opt_Handler (options h) = Some hd ->
  let opts := {| RequestID := Header_Get (reqHeader request) headerRequestID;
                 CallbackURL := Values_Get (Query request) queryCallbackURL;
                 soHeader := reqHeader request |} in
  let input := {| es_codec := opt_Codec (options h);
                  es_stream := {| sHeader := header; sReader := Body request |} |} in
  StartOperation hd RequestContext operation input opts
  = (Some (OperationResponseAsync operationID), None) ->
  startOperation h request s
  = OperationResponseAsync_applyToHTTPResponse operationID h
      (afterCall (CallStartOperation RequestContext operation input opts) s).
Proof.
  intros Hop Hhdr Hh opts input Hstart. unfold startOperation. rewrite Hop.
  unfold bind at 1. rewrite Hhdr, Hh. fold opts input.
  cbv [bind deref ret emit]. rewrite Hstart. reflexivity.
Qed.

(** C7. The response of an operation started asynchronously, with the
    operation info [{id, running}] marshalling to [b]: status 201,
    content type JSON, body [b]; the header is set before the status line
    and the body is written after it. *)
Theorem OperationResponseAsync_created
    (handler : httpHandler) (operationID : string) (b : string) (s : St) :
  json_Marshal_OperationInfo {| ID := operationID; State := "running" |} = inl b ->
  NotStarted (writer s) ->
  rw_writeErr (writer s) = None ->
  exists r,
    response_of (applyToHTTPResponse (OperationResponseAsync operationID) handler s)
    = Some r
    /\ StatusCode r = 201
    /\ Header_Get (rHeader r) headerContentType = "application/json"
    /\ rBody r = b
    /\ effects_of (applyToHTTPResponse (OperationResponseAsync operationID) handler s)
       = (effects s ++ [ EvHeaderSet headerContentType contentTypeJSON;
                         EvWriteHeader 201;
                         EvWrite b ])%list.
Proof.
  intros Hm Hs Hw.
  unfold applyToHTTPResponse, OperationResponseAsync_applyToHTTPResponse.
  change OperationStateRunning with "running". rewrite Hm.
  fresh_state s. run. observe. eexists. split; [reflexivity|].
  cbn [StatusCode rHeader rBody].
  repeat split. apply Header_Get_Set.
Qed.

(** ** The constructor *)

(** C10. For every options value: the handler that [NewHTTPHandler]
    builds has [slog.Default()] as its logger; the [Logger] field of its
    copy of the options is the configured logger, or the default one when
    none was configured; and whatever the [Logger] field is, each of the
    four endpoints and the two writers runs the same, so the field is
    never used. *)
Theorem NewHTTPHandler_logger (opts : HandlerOptions) :
  logger (base (NewHTTPHandler opts)) = slog_Default
  /\ opt_Logger (options (NewHTTPHandler opts))
     = Some (match opt_Logger opts with
             | Some l => l
             | None => slog_Default
             end)
  /\ forall (l : option Logger) (request : Request) (result : Any) (err : error),
       base (NewHTTPHandler (withLogger l opts)) = base (NewHTTPHandler opts)
       /\ startOperation (NewHTTPHandler (withLogger l opts)) request
          = startOperation (NewHTTPHandler opts) request
       /\ getOperationResult (NewHTTPHandler (withLogger l opts)) request
          = getOperationResult (NewHTTPHandler opts) request
       /\ getOperationInfo (NewHTTPHandler (withLogger l opts)) request
          = getOperationInfo (NewHTTPHandler opts) request
       /\ cancelOperation (NewHTTPHandler (withLogger l opts)) request
          = cancelOperation (NewHTTPHandler opts) request
       /\ writeResult (NewHTTPHandler (withLogger l opts)) result
          = writeResult (NewHTTPHandler opts) result
       /\ writeFailure (base (NewHTTPHandler (withLogger l opts))) err
          = writeFailure (base (NewHTTPHandler opts)) err.
Proof.
  destruct opts as [hd lg t c]. split; [reflexivity|]. split.
  - destruct lg;
      cbv [NewHTTPHandler options opt_Logger opt_GetResultTimeout opt_Codec opt_Handler];
      destruct (Z.eqb t 0), c; reflexivity.
  - intros l request result err.
    destruct l, lg;
      cbv [NewHTTPHandler withLogger opt_Logger opt_GetResultTimeout opt_Codec
           opt_Handler];
      destruct (Z.eqb t 0), c; repeat split; reflexivity.
Qed.

End ResultWriter.

Section GetResult.
Context {rt : Runtime}.

(** ** Get result *)

(** The call of the user handler, once the handler is there: the call is
    recorded and the answer decides. *)
Lemma getOperationResult_call_run (h : httpHandler) (hd : Handler)
    (ctx : context_Context) (operation operationID : string)
    (opts : GetOperationResultOptions) (s : St) :
  opt_Handler (options h) = Some hd ->
  getOperationResult_call h ctx operation operationID opts s
  = match GetOperationResult hd ctx operation operationID opts with
    | (_, Some err) =>
        if Z.ltb 0 (Wait opts) && notNil (ctx_Err ctx) then
          writer_WriteHeader StatusRequestTimeout
        else if errors_Is_ErrOperationStillRunning err then
          writer_WriteHeader statusOperationRunning
        else writeFailure (base h) err
    | (result, None) => writeResult h result
    end (afterCall (CallGetOperationResult ctx operation operationID opts) s).
Proof.
  intros Hh. unfold getOperationResult_call. rewrite Hh.
  cbv [bind deref ret emit afterCall]. reflexivity.
Qed.

(** A request whose path decodes and whose [wait] parses to [d]. *)
Lemma getOperationResult_parsed (h : httpHandler) (request : Request)
    (prefix operationIDEscaped operationID operation : string) (d : Z) :
  path_Split (path_Dir (EscapedPath request)) = (prefix, operationIDEscaped) ->
  url_PathUnescape operationIDEscaped = Some operationID ->
  url_PathUnescape (path_Base prefix) = Some operation ->
  Values_Get (Query request) queryWait <> "" ->
  time_ParseDuration (Values_Get (Query request) queryWait) = Some d ->
  getOperationResult h request
  = getOperationResult_call h
      (WithTimeout RequestContext (opt_GetResultTimeout (options h)))
      operation operationID {| grHeader := reqHeader request; Wait := d |}.
Proof.
  intros Hsplit Hid Hop Hne Hd. unfold getOperationResult.
  rewrite Hsplit, Hid, Hop, (String_eqb_neq _ _ Hne), Hd. reflexivity.
Qed.

(** C1, as the code has it.  A get-result request whose path decodes and
    whose [wait] is positive, on a handler that is there.  When the user
    handler returns an error and the derived context is done, the response
    is 408, also when the error is [ErrOperationStillRunning]; when it
    returns [ErrOperationStillRunning] (wrapped or not) and the context is
    not done, the response is 412; a result without error goes to
    [writeResult], whether the context is done or not. *)
Theorem getOperationResult_positive_wait
    (h : httpHandler) (hd : Handler) (request : Request)
    (prefix operationIDEscaped operationID operation : string) (d : Z) (s : St) :
  path_Split (path_Dir (EscapedPath request)) = (prefix, operationIDEscaped) ->
  url_PathUnescape operationIDEscaped = Some operationID ->
  url_PathUnescape (path_Base prefix) = Some operation ->
  Values_Get (Query request) queryWait <> "" ->
  time_ParseDuration (Values_Get (Query request) queryWait) = Some d ->
  0 < d ->
  opt_Handler (options h) = Some hd ->
  NotStarted (writer s) ->
  let ctx := WithTimeout RequestContext (opt_GetResultTimeout (options h)) in
  let opts := {| grHeader := reqHeader request; Wait := d |} in
  let answer := GetOperationResult hd ctx operation operationID opts in
  (forall v e,
     answer = (v, Some e) -> ctx_Err ctx <> None ->
     response_of (getOperationResult h request s)
     = Some {| StatusCode := 408; rHeader := rw_header (writer s); rBody := "" |})
  /\ (forall v e,
        answer = (v, Some e) -> ctx_Err ctx = None ->
        errors_Is_ErrOperationStillRunning e = true ->
        response_of (getOperationResult h request s)
        = Some {| StatusCode := 412; rHeader := rw_header (writer s); rBody := "" |})
  /\ (forall v,
        answer = (v, None) ->
        getOperationResult h request s
        = writeResult h v
            (afterCall (CallGetOperationResult ctx operation operationID opts) s)).
Proof.
  intros Hsplit Hid Hop Hne Hd Hpos Hh Hs ctx opts answer.
  rewrite (getOperationResult_parsed _ _ _ _ _ _ _ Hsplit Hid Hop Hne Hd).
  rewrite (getOperationResult_call_run _ _ _ _ _ _ _ Hh).
  fold ctx opts answer. cbn [Wait opts].
  assert (Z.ltb 0 d = true) as -> by (apply Z.ltb_lt; exact Hpos).
  repeat split.
  - intros v e -> Hdone. destruct (ctx_Err ctx); [|congruence].
    fresh_state s. cbn [andb notNil afterCall writer effects]. run. reflexivity.
  - intros v e -> Hlive Hrun. rewrite Hlive, Hrun.
    fresh_state s. cbn [andb notNil afterCall writer effects]. run. reflexivity.
  - intros v ->. reflexivity.
Qed.

(** A bad-request error whose failure marshals to [b], on a healthy
    writer that has not started: 400, content type JSON, body [b]. *)
Lemma writeFailure_bad_request (h : baseHTTPHandler) (message b : string)
    (hdr sent : Header) (code : Z) (evs : list Event) :
  json_Marshal_Failure (FailureWithMessage message) = inl b ->
  writeFailure h (ErrHandlerError (newBadRequestError message))
    {| writer := mkResponseWriter hdr false code sent "" None; effects := evs |}
  = Returned tt
      {| writer := mkResponseWriter (Header_Set hdr headerContentType contentTypeJSON)
                     true 400
                     (Header_Set hdr headerContentType contentTypeJSON) b None;
         effects := (evs ++ [ EvHeaderSet headerContentType contentTypeJSON;
                              EvWriteHeader 400;
                              EvWrite b ])%list |}.
Proof.
  intros Hm. unfold writeFailure.
  cbn [errors_As_UnsuccessfulOperationError errors_As_HandlerError newBadRequestError
       Type_ heFailure].
  change (handlerErrorStatus h HandlerErrorTypeBadRequest) with (@ret Z StatusBadRequest).
  cbv [bind ret]. rewrite (writeFailure_respond_ok _ _ _ _ _ _ _ _ Hm).
  rewrite <- !app_assoc. reflexivity.
Qed.

(** C9, as the code has it.  A get-result request whose [wait] parameter
    has a non-empty first value that does not parse as a duration, on a
    healthy writer, failures with a message marshalling: the response is
    400 with content type JSON and the JSON of a failure as its body, and
    the user handler is not called. *)
Theorem getOperationResult_invalid_wait
    (h : httpHandler) (request : Request) (s : St) :
  Values_Get (Query request) queryWait <> "" ->
  time_ParseDuration (Values_Get (Query request) queryWait) = None ->
  (forall m, exists b, json_Marshal_Failure (FailureWithMessage m) = inl b) ->
  NotStarted (writer s) ->
  rw_writeErr (writer s) = None ->
  exists r m evs,
    response_of (getOperationResult h request s) = Some r
    /\ StatusCode r = 400
    /\ Header_Get (rHeader r) headerContentType = contentTypeJSON
    /\ json_Marshal_Failure (FailureWithMessage m) = inl (rBody r)
    /\ effects_of (getOperationResult h request s) = (effects s ++ evs)%list
    /\ noCall evs.
Proof.
  intros Hne Hd Hm Hs Hw. unfold getOperationResult.
  destruct (path_Split (path_Dir (EscapedPath request))) as [prefix operationIDEscaped].
  destruct (Hm "failed to parse URL path") as [b1 Hb1].
  destruct (Hm "invalid wait query parameter") as [b2 Hb2].
  fresh_state s.
  destruct (url_PathUnescape operationIDEscaped) as [operationID|];
    [destruct (url_PathUnescape (path_Base prefix)) as [operation|]|].
  - rewrite (String_eqb_neq _ _ Hne), Hd. cbn [negb].
    cbv [bind logger_Warn emit writer effects].
    rewrite (writeFailure_bad_request _ _ _ _ _ _ _ Hb2).
    exists (mkResponse 400 (Header_Set hdr headerContentType contentTypeJSON) b2),
      "invalid wait query parameter". eexists.
    observe. split; [reflexivity|]. split; [reflexivity|].
    split; [apply Header_Get_Set|]. split; [exact Hb2|]. split; reflexivity.
  - unfold badPath. rewrite (writeFailure_bad_request _ _ _ _ _ _ _ Hb1).
    exists (mkResponse 400 (Header_Set hdr headerContentType contentTypeJSON) b1),
      "failed to parse URL path". eexists.
    observe. split; [reflexivity|]. split; [reflexivity|].
    split; [apply Header_Get_Set|]. split; [exact Hb1|]. split; reflexivity.
  - unfold badPath. rewrite (writeFailure_bad_request _ _ _ _ _ _ _ Hb1).
    exists (mkResponse 400 (Header_Set hdr headerContentType contentTypeJSON) b1),
      "failed to parse URL path". eexists.
    observe. split; [reflexivity|]. split; [reflexivity|].
    split; [apply Header_Get_Set|]. split; [exact Hb1|]. split; reflexivity.
Qed.

End GetResult.

(** ** The tests of the package, run on the embedding *)

(** [TestWriteFailure_GenericError]. *)
Example TestWriteFailure_GenericError :
  let out := @writeFailure Std.inTime Test.baseHandler (ErrOther "foo") initial in
  option_map StatusCode (response_of out) = Some 500
  /\ option_map (fun r => Header_Get (rHeader r) headerContentType) (response_of out)
     = Some contentTypeJSON
  /\ option_map rBody (response_of out) = Some internalServerErrorJSON.
Proof. vm_compute. repeat split. Qed.

(** [TestWriteFailure_HandlerError]. *)
Example TestWriteFailure_HandlerError :
  let out := @writeFailure Std.inTime Test.baseHandler
               (ErrHandlerError (newBadRequestError "foo")) initial in
  option_map StatusCode (response_of out) = Some 400
  /\ option_map (fun r => Header_Get (rHeader r) headerContentType) (response_of out)
     = Some contentTypeJSON
  /\ option_map rBody (response_of out) = Some (messageJSON "foo").
Proof. vm_compute. repeat split. Qed.

(** [TestWriteFailure_UnsuccessfulOperationError]. *)
Example TestWriteFailure_UnsuccessfulOperationError :
  let out := @writeFailure Std.inTime Test.baseHandler
               (ErrUnsuccessfulOperation
                  {| uoeState := OperationStateCanceled;
                     uoeFailure := FailureWithMessage "canceled" |}) initial in
  option_map StatusCode (response_of out) = Some statusOperationFailed
  /\ option_map (fun r => Header_Get (rHeader r) headerContentType) (response_of out)
     = Some contentTypeJSON
  /\ option_map (fun r => Header_Get (rHeader r) headerOperationState) (response_of out)
     = Some "canceled"
  /\ option_map rBody (response_of out) = Some (messageJSON "canceled").
Proof. vm_compute. repeat split. Qed.

(** A handler that answers get-result with a stream, as the handlers of
    the tests of the package do: the run panics and there is no response. *)
Example getOperationResult_stream_result :
  @getOperationResult Std.inTime
    (Test.server Std.inTime (AnyStream (Some Test.octetStream), None))
    (Test.getResult ∅) initial
  = Panicked nilDereference
      (afterCall (CallGetOperationResult RequestContext "f/o/o" "a/sync"
                    {| grHeader := {[ "User-Agent" := ["Nexus-go-sdk/v0.0.0"] ]};
                       Wait := 0 |}) initial).
Proof. vm_compute. reflexivity. Qed.

(** The same handler with a value that is no stream: the codec makes the
    stream and the response is 200 with its bytes. *)
Example getOperationResult_value_result :
  option_map (fun r => (StatusCode r, Header_Get (rHeader r) headerContentType, rBody r))
    (response_of (@getOperationResult Std.inTime
                    (Test.server Std.inTime (AnyValue (VBytes "body"), None))
                    (Test.getResult ∅) initial))
  = Some (200, "application/json", Std.quote +:+ "Ym9keQ==" +:+ Std.quote).
Proof. vm_compute. reflexivity. Qed.

(** [TestAsync]: a start that the handler answers with the id "a/sync". *)
Example TestAsync :
  option_map (fun r => (StatusCode r, Header_Get (rHeader r) headerContentType,
                        inl (rBody r)))
    (response_of (@startOperation Std.inTime
                    (Test.server Std.inTime (AnyValue VNil, None))
                    {| EscapedPath := "/foo"; Query := ∅;
                       reqHeader := {[ "Content-Type" := ["application/json"] ]};
                       Body := {| rd_data := "null"; rd_err := None;
                                  rd_closer := true |} |}
                    initial))
  = Some (201, "application/json",
          Std.Marshal_OperationInfo {| ID := "a/sync"; State := "running" |}).
Proof. vm_compute. reflexivity. Qed.

(** [TestPeekResult_StillRunning]: no wait, the operation still runs. *)
Example TestPeekResult_StillRunning :
  response_of (@getOperationResult Std.inTime
                 (Test.server Std.inTime (AnyValue VNil, Some ErrOperationStillRunning))
                 (Test.getResult ∅) initial)
  = Some {| StatusCode := statusOperationRunning; rHeader := ∅; rBody := "" |}.
Proof. vm_compute. reflexivity. Qed.

(** [TestPeekResult_Canceled]. *)
Example TestPeekResult_Canceled :
  option_map (fun r => (StatusCode r, Header_Get (rHeader r) headerOperationState))
    (response_of (@getOperationResult Std.inTime
                    (Test.server Std.inTime
                       (AnyValue VNil,
                        Some (ErrUnsuccessfulOperation
                                {| uoeState := OperationStateCanceled;
                                   uoeFailure := FailureWithMessage "" |})))
                    (Test.getResult ∅) initial))
  = Some (statusOperationFailed, "canceled").
Proof. vm_compute. reflexivity. Qed.

(** A body written before the header was set does not have the order
    that [BodyAfterJSONHeader] asks for. *)
Example BodyAfterJSONHeader_refuses :
  ~ BodyAfterJSONHeader [EvWriteHeader 500; EvWrite "x";
                         EvHeaderSet headerContentType contentTypeJSON].
Proof.
  intros H. destruct (H [EvWriteHeader 500] "x"
                        [EvHeaderSet headerContentType contentTypeJSON]
                        eq_refl) as (a & b & c & code & Heq); [discriminate|].
  destruct a as [|x [|y a]]; discriminate Heq.
Qed.

(** ** The theorems at concrete inputs *)

Lemma writeFailure_unexpected_operation_state_witness :
  let err := ErrUnsuccessfulOperation
               {| uoeState := "running"; uoeFailure := FailureWithMessage "x" |} in
  effects_of (@writeFailure Std.inTime Test.baseHandler err initial)
  = [ EvLog (LoggerId 0) LevelError "unexpected operation state"
        [("state", AttrString "running")];
      EvWriteHeader 500 ]
  /\ response_of (@writeFailure Std.inTime Test.baseHandler err initial)
     = Some {| StatusCode := 500; rHeader := ∅; rBody := "" |}.
Proof.
  apply (@writeFailure_unexpected_operation_state Std.inTime Test.baseHandler
           (ErrUnsuccessfulOperation
              {| uoeState := "running"; uoeFailure := FailureWithMessage "x" |})
           {| uoeState := "running"; uoeFailure := FailureWithMessage "x" |}
           initial).
  - reflexivity.
  - discriminate.
  - discriminate.
  - split; reflexivity.
Defined.

Lemma writeFailure_unsuccessful_operation_witness :
  let e := {| uoeState := "failed"; uoeFailure := FailureWithMessage "intentional" |} in
  exists r,
    response_of (@writeFailure Std.inTime Test.baseHandler
                   (ErrWrap "start" (ErrUnsuccessfulOperation e)) initial) = Some r
    /\ StatusCode r = 424
    /\ Header_Get (rHeader r) headerOperationState = "failed"
    /\ Header_Get (rHeader r) headerContentType = contentTypeJSON
    /\ rBody r = messageJSON "intentional".
Proof.
  intros e.
  destruct (@writeFailure_unsuccessful_operation Std.inTime Test.baseHandler
              (ErrWrap "start" (ErrUnsuccessfulOperation e)) e
              (messageJSON "intentional") initial)
    as (r & Hr & Hcode & Hstate & _ & Hct & Hbody & _).
  - reflexivity.
  - left. reflexivity.
  - vm_compute. reflexivity.
  - split; reflexivity.
  - reflexivity.
  - exists r. repeat split; assumption.
Defined.

Lemma writeFailure_operation_failed_status_witness :
  let e := {| Type_ := HandlerErrorTypeOperationFailed;
              heFailure := Some (FailureWithMessage "operation failed") |} in
  section6Status (Type_ e) = Some 424
  /\ exists r tail,
       response_of (@writeFailure Std.inTime Test.baseHandler (ErrHandlerError e) initial)
       = Some r
       /\ StatusCode r = 500
       /\ effects_of (@writeFailure Std.inTime Test.baseHandler (ErrHandlerError e) initial)
          = EvLog (LoggerId 0) LevelError "unexpected handler error type"
              [("type", AttrString "OPERATION_FAILED")] :: tail.
Proof.
  intros e.
  apply (@writeFailure_operation_failed_status Std.inTime Test.baseHandler
           (ErrHandlerError e) e initial).
  - reflexivity.
  - reflexivity.
  - reflexivity.
  - split; reflexivity.
  - reflexivity.
Defined.

Lemma writeFailure_generic_error_witness :
  response_of (@writeFailure Std.inTime Test.baseHandler (ErrOther "foo") initial)
  = Some {| StatusCode := 500;
            rHeader := Header_Set ∅ headerContentType contentTypeJSON;
            rBody := internalServerErrorJSON |}
  /\ response_of (@writeFailure Std.inTime Test.baseHandler
                    (ErrWrap "failed to serialize handler result" ErrOperationStillRunning)
                    initial)
     = response_of (@writeFailure Std.inTime Test.baseHandler (ErrOther "foo") initial).
Proof.
  destruct (@writeFailure_generic_error Std.inTime Test.baseHandler (ErrOther "foo")
              initial) as (Hr & _ & Hsame).
  - reflexivity.
  - reflexivity.
  - vm_compute. reflexivity.
  - split; reflexivity.
  - reflexivity.
  - split; [exact Hr|]. apply Hsame; reflexivity.
Defined.

Lemma OperationResponseAsync_created_witness :
  exists r,
    response_of (@applyToHTTPResponse Std.inTime (OperationResponseAsync "a/sync")
                   (Test.server Std.inTime (AnyValue VNil, None)) initial) = Some r
    /\ StatusCode r = 201
    /\ Header_Get (rHeader r) headerContentType = "application/json"
    /\ Std.Marshal_OperationInfo {| ID := "a/sync"; State := "running" |}
       = inl (rBody r).
Proof.
  destruct (@OperationResponseAsync_created Std.inTime
              (Test.server Std.inTime (AnyValue VNil, None)) "a/sync"
              (match Std.Marshal_OperationInfo {| ID := "a/sync"; State := "running" |} with
               | inl b => b
               | inr _ => ""
               end) initial)
    as (r & Hr & Hcode & Hct & Hbody & _).
  - vm_compute. reflexivity.
  - split; reflexivity.
  - reflexivity.
  - exists r. repeat split; try assumption. rewrite Hbody. vm_compute. reflexivity.
Defined.

Lemma getOperationResult_positive_wait_witness :
  let request := Test.getResult {[ "wait" := ["1s"] ]} in
  (@time_ParseDuration Std.inTime (Values_Get (Query request) queryWait)
   = Some 1000000000)
  /\ response_of (@getOperationResult Std.expired
                    (Test.server Std.expired (AnyValue VNil, Some (ErrOther "boom")))
                    request initial)
     = Some {| StatusCode := 408; rHeader := ∅; rBody := "" |}
  /\ response_of (@getOperationResult Std.inTime
                    (Test.server Std.inTime
                       (AnyValue VNil, Some (ErrWrap "poll" ErrOperationStillRunning)))
                    request initial)
     = Some {| StatusCode := 412; rHeader := ∅; rBody := "" |}
  /\ @getOperationResult Std.expired
       (Test.server Std.expired (AnyValue (VString "done"), None)) request initial
     = @writeResult Std.expired
         (Test.server Std.expired (AnyValue (VString "done"), None))
         (AnyValue (VString "done"))
         (afterCall (CallGetOperationResult Test.longPollContext "f/o/o" "a/sync"
                       Test.longPollOptions) initial).
Proof.
  intros request. split; [vm_compute; reflexivity|].
  split; [|split].
  - destruct (@getOperationResult_positive_wait Std.expired
                (Test.server Std.expired (AnyValue VNil, Some (ErrOther "boom")))
                (Test.handler (AnyValue VNil, Some (ErrOther "boom")))
                request "/f%2Fo%2Fo/" "a%2Fsync" "a/sync" "f/o/o" 1000000000 initial)
      as (Htimeout & _ & _).
    + vm_compute. reflexivity.
    + vm_compute. reflexivity.
    + vm_compute. reflexivity.
    + vm_compute. discriminate.
    + vm_compute. reflexivity.
    + lia.
    + reflexivity.
    + split; reflexivity.
    + apply (Htimeout (AnyValue VNil) (ErrOther "boom")); [reflexivity | discriminate].
  - destruct (@getOperationResult_positive_wait Std.inTime
                (Test.server Std.inTime
                   (AnyValue VNil, Some (ErrWrap "poll" ErrOperationStillRunning)))
                (Test.handler
                   (AnyValue VNil, Some (ErrWrap "poll" ErrOperationStillRunning)))
                request "/f%2Fo%2Fo/" "a%2Fsync" "a/sync" "f/o/o" 1000000000 initial)
      as (_ & Hrunning & _).
    + vm_compute. reflexivity.
    + vm_compute. reflexivity.
    + vm_compute. reflexivity.
    + vm_compute. discriminate.
    + vm_compute. reflexivity.
    + lia.
    + reflexivity.
    + split; reflexivity.
    + apply (Hrunning (AnyValue VNil) (ErrWrap "poll" ErrOperationStillRunning));
        reflexivity.
  - destruct (@getOperationResult_positive_wait Std.expired
                (Test.server Std.expired (AnyValue (VString "done"), None))
                (Test.handler (AnyValue (VString "done"), None))
                request "/f%2Fo%2Fo/" "a%2Fsync" "a/sync" "f/o/o" 1000000000 initial)
      as (_ & _ & Hresult).
    + vm_compute. reflexivity.
    + vm_compute. reflexivity.
    + vm_compute. reflexivity.
    + vm_compute. discriminate.
    + vm_compute. reflexivity.
    + lia.
    + reflexivity.
    + split; reflexivity.
    + apply (Hresult (AnyValue (VString "done"))). reflexivity.
Defined.

Lemma Marshal_Failure_message (m : string) :
  exists b, Std.Marshal_Failure (FailureWithMessage m) = inl b.
Proof. unfold Std.Marshal_Failure. eexists. reflexivity. Qed.

Lemma getOperationResult_invalid_wait_witness :
  let request := Test.getResult {[ "wait" := ["soon"] ]} in
  exists r,
    response_of (@getOperationResult Std.inTime
                   (Test.server Std.inTime (AnyValue VNil, None)) request initial)
    = Some r
    /\ StatusCode r = 400
    /\ Header_Get (rHeader r) headerContentType = contentTypeJSON
    /\ existsb isCall
         (effects_of (@getOperationResult Std.inTime
                        (Test.server Std.inTime (AnyValue VNil, None)) request initial))
       = false.
Proof.
  intros request.
  destruct (@getOperationResult_invalid_wait Std.inTime
              (Test.server Std.inTime (AnyValue VNil, None)) request initial)
    as (r & m & evs & Hr & Hcode & Hct & _ & _ & _).
  - vm_compute. discriminate.
  - vm_compute. reflexivity.
  - exact Marshal_Failure_message.
  - split; reflexivity.
  - reflexivity.
  - exists r. split; [exact Hr|]. split; [exact Hcode|]. split; [exact Hct|].
    vm_compute. reflexivity.
Defined.

(** ** Where the code departs from the claims as they are stated *)

(** C1, against the claim as stated.  With [wait=1s], a handler that
    returns [ErrOperationStillRunning] once the derived context is done
    gets 408, not 412; and a handler that returns a result once the
    derived context is done gets its result written with 200, not 408. *)
Lemma getOperationResult_done_context_first :
  let request := Test.getResult {[ "wait" := ["1s"] ]} in
  let stillRunning := Test.server Std.expired (AnyValue VNil, Some ErrOperationStillRunning) in
  let done := Test.server Std.expired (AnyValue (VString "done"), None) in
  @time_ParseDuration Std.expired (Values_Get (Query request) queryWait)
  = Some 1000000000
  /\ @ctx_Err Std.expired Test.longPollContext = Some Std.DeadlineExceeded
  /\ option_map StatusCode
       (response_of (@getOperationResult Std.expired stillRunning request initial))
     = Some 408
  /\ option_map StatusCode
       (response_of (@getOperationResult Std.expired stillRunning request initial))
     <> Some statusOperationRunning
  /\ option_map StatusCode
       (response_of (@getOperationResult Std.expired done request initial))
     = Some 200
  /\ option_map StatusCode
       (response_of (@getOperationResult Std.expired done request initial))
     <> Some StatusRequestTimeout.
Proof. vm_compute. repeat split; discriminate. Qed.

(** C9, against the claim as stated.  In [?wait=] the parameter is
    present and its value, the empty string, is no duration; the server
    takes it as no wait at all, calls the user handler and writes its
    result with 200. *)
Lemma getOperationResult_empty_wait_calls_handler :
  let request := Test.getResult {[ "wait" := [""] ]} in
  let h := Test.server Std.inTime (AnyValue (VString "done"), None) in
  Query request !! queryWait = Some [""]
  /\ @time_ParseDuration Std.inTime "" = None
  /\ option_map StatusCode (response_of (@getOperationResult Std.inTime h request initial))
     = Some 200
  /\ option_map StatusCode (response_of (@getOperationResult Std.inTime h request initial))
     <> Some StatusBadRequest
  /\ existsb isCall (effects_of (@getOperationResult Std.inTime h request initial))
     = true.
Proof. vm_compute. repeat split; discriminate. Qed.

(** ** What a run may add to the events *)

Section Emits.
Context (Q : Event -> Prop).

Lemma emitsOnly_ret {A} (a : A) : emitsOnly Q (ret a).
Proof. intros s. exists []. cbn. by rewrite app_nil_r. Qed.

Lemma emitsOnly_panic {A} (msg : string) : emitsOnly Q (@panic A msg).
Proof. intros s. exists []. cbn. by rewrite app_nil_r. Qed.

Lemma emitsOnly_bind {A B} (m : M A) (k : A -> M B) :
  emitsOnly Q m -> (forall a, emitsOnly Q (k a)) -> emitsOnly Q (bind m k).
Proof.
  intros Hm Hk s. destruct (Hm s) as (e1 & H1 & F1). unfold bind.
  destruct (m s) as [a s1 | msg s1]; cbn [effects_of] in H1.
  - destruct (Hk a s1) as (e2 & H2 & F2). exists (e1 ++ e2)%list.
    rewrite H2, H1, app_assoc. split; [reflexivity | by apply Forall_app].
  - exists e1. by split.
Qed.

Lemma emitsOnly_emit (e : Event) : Q e -> emitsOnly Q (emit e).
Proof. intros He s. exists [e]. split; [reflexivity | by constructor]. Qed.

Lemma emitsOnly_onWriter (f : ResponseWriter -> ResponseWriter) :
  emitsOnly Q (onWriter f).
Proof. intros s. exists []. cbn. by rewrite app_nil_r. Qed.

Lemma emitsOnly_deref {A} (p : option A) : emitsOnly Q (deref p).
Proof. destruct p; [apply emitsOnly_ret | apply emitsOnly_panic]. Qed.

Lemma emitsOnly_Header_Set (k v : string) :
  Q (EvHeaderSet k v) -> emitsOnly Q (writer_Header_Set k v).
Proof.
  intros H. apply emitsOnly_bind; [by apply emitsOnly_emit|].
  intros _. apply emitsOnly_onWriter.
Qed.

Lemma emitsOnly_WriteHeader (code : Z) :
  Q (EvWriteHeader code) -> emitsOnly Q (writer_WriteHeader code).
Proof.
  intros H. apply emitsOnly_bind; [by apply emitsOnly_emit|].
  intros _. apply emitsOnly_onWriter.
Qed.

Lemma emitsOnly_Write (data : string) :
  Q (EvWrite data) -> emitsOnly Q (writer_Write data).
Proof.
  intros H. apply emitsOnly_bind; [by apply emitsOnly_emit|].
  intros _ s. exists []. destruct (rw_Write data (writer s)) as [w e].
  cbn. by rewrite app_nil_r.
Qed.

Lemma emitsOnly_log (l : Logger) (lvl : Level) (msg : string)
    (attrs : list (string * Attr)) :
  Q (EvLog l lvl msg attrs) -> emitsOnly Q (emit (EvLog l lvl msg attrs)).
Proof. apply emitsOnly_emit. Qed.

Lemma emitsOnly_defer {A} (d : M unit) (body : M A) :
  emitsOnly Q d -> emitsOnly Q body -> emitsOnly Q (defer d body).
Proof.
  intros Hd Hb s. destruct (Hb s) as (e1 & H1 & F1). unfold defer.
  destruct (body s) as [a s1 | msg s1]; cbn [effects_of] in H1;
    destruct (Hd s1) as (e2 & H2 & F2);
    destruct (d s1) as [u s2 | msg2 s2]; cbn [effects_of] in H2 |- *;
    exists (e1 ++ e2)%list; rewrite H2, H1, app_assoc;
    (split; [reflexivity | by apply Forall_app]).
Qed.

End Emits.

(** Splits a goal [emitsOnly Q m] along the structure of [m], as far as
    that structure is written out. *)
Ltac emits :=
  repeat lazymatch goal with
    | |- emitsOnly _ (ret _) => apply emitsOnly_ret
    | |- emitsOnly _ (panic _) => apply emitsOnly_panic
    | |- emitsOnly _ (deref _) => apply emitsOnly_deref
    | |- emitsOnly _ (onWriter _) => apply emitsOnly_onWriter
    | |- emitsOnly _ (writer_Header_Set _ _) => apply emitsOnly_Header_Set
    | |- emitsOnly _ (writer_WriteHeader _) => apply emitsOnly_WriteHeader
    | |- emitsOnly _ (writer_Write _) => apply emitsOnly_Write
    | |- emitsOnly _ (emit _) => apply emitsOnly_emit
    | |- emitsOnly _ (bind _ _) => apply emitsOnly_bind; [| intros ?]
    | |- emitsOnly _ (defer _ _) => apply emitsOnly_defer
    | |- emitsOnly _ (match ?x with _ => _ end) => destruct x
    | |- emitsOnly _ (let (_, _) := ?x in _) => destruct x
    end.

Section Invariants.
Context {rt : Runtime}.

(** ** Invariants of the failure writer *)

Lemma writeFailure_respond_headers (h : baseHTTPHandler) (failure : option Failure)
    (statusCode : Z) :
  emitsOnly failureHeader (writeFailure_respond h failure statusCode).
Proof.
  unfold writeFailure_respond, logger_Error. emits; try exact I.
  left. by split.
Qed.

(** X1. The only headers the failure writer ever sets, for any error and
    from any state, are [Content-Type: application/json] and
    [Nexus-Operation-State] with the value "failed" or "canceled". *)
Theorem writeFailure_sets_failure_headers (h : baseHTTPHandler) (err : error) :
  emitsOnly failureHeader (writeFailure h err).
Proof.
  unfold writeFailure.
  destruct (errors_As_UnsuccessfulOperationError err) as [e|].
  - destruct (String.eqb (uoeState e) OperationStateFailed) eqn:Hf;
      [|destruct (String.eqb (uoeState e) OperationStateCanceled) eqn:Hc];
      cbn [orb]; unfold logger_Error.
    + apply String.eqb_eq in Hf.
      emits; try exact I; try apply writeFailure_respond_headers.
      all: right; split; [reflexivity | left; exact Hf].
    + apply String.eqb_eq in Hc.
      emits; try exact I; try apply writeFailure_respond_headers.
      all: right; split; [reflexivity | right; exact Hc].
    + emits; exact I.
  - destruct (errors_As_HandlerError err) as [e|].
    + apply emitsOnly_bind; [|intros ?; apply writeFailure_respond_headers].
      unfold handlerErrorStatus, logger_Error.
      repeat match goal with
             | |- context [if String.eqb ?t ?k then _ else _] =>
                 destruct (String.eqb t k)
             end; emits; try exact I.
      all: right; split; [reflexivity | by right].
    + unfold logger_Error.
      emits; try exact I; try apply writeFailure_respond_headers.
Qed.

Lemma writeFailure_logs (h : baseHTTPHandler) (err : error) :
  emitsOnly (loggedTo (logger h)) (writeFailure h err).
Proof.
  unfold writeFailure, writeFailure_respond, handlerErrorStatus, logger_Error.
  destruct (errors_As_UnsuccessfulOperationError err) as [e|];
    [|destruct (errors_As_HandlerError err) as [e|]].
  - destruct (_ || _); emits; first [exact I | reflexivity].
  - apply emitsOnly_bind.
    + repeat match goal with
             | |- context [if String.eqb ?t ?k then _ else _] =>
                 destruct (String.eqb t k)
             end; emits; first [exact I | reflexivity].
    + intros ?. emits; first [exact I | reflexivity].
  - emits; first [exact I | reflexivity].
Qed.

Lemma setHeaders_emits (Q : Event -> Prop) (kvs : list (string * string)) :
  (forall k v, Q (EvHeaderSet k v)) -> emitsOnly Q (setHeaders kvs).
Proof.
  intros HQ. induction kvs as [|[k v] kvs IH]; cbn [setHeaders]; emits; auto.
Qed.

Lemma contentHeaders_emits (Q : Event -> Prop) (kvs : list (string * list string))
    (acc : StringMap) :
  emitsOnly Q (contentHeaders kvs acc).
Proof.
  revert acc. induction kvs as [|[k vs] kvs IH]; intros acc; cbn [contentHeaders].
  - emits.
  - destruct (strings_HasPrefix k "Content-"); [destruct vs|]; emits; auto.
Qed.

Lemma writeResult_stream_logs (h : httpHandler) (stream : option Stream) :
  emitsOnly (loggedTo (logger (base h))) (writeResult_stream h stream).
Proof.
  unfold writeResult_stream, io_Copy, logger_Error.
  emits; try exact I; try reflexivity;
    try (apply setHeaders_emits; intros; exact I).
Qed.

Lemma writeResult_logs (h : httpHandler) (result : Any) :
  emitsOnly (loggedTo (logger (base h))) (writeResult h result).
Proof.
  unfold writeResult. cbv zeta. destruct result as [st|v];
    emits; try exact I; try apply writeFailure_logs;
    try apply writeResult_stream_logs.
Qed.

(** X2. Every log record that an endpoint writes, on any request and
    from any state, goes to the logger of the handler; for a handler made
    by [NewHTTPHandler] that is [slog.Default()], whatever the options
    hold. *)
Theorem endpoints_log_to_handler_logger (h : httpHandler) (request : Request)
    (opts : HandlerOptions) :
  (emitsOnly (loggedTo (logger (base h))) (startOperation h request)
   /\ emitsOnly (loggedTo (logger (base h))) (getOperationResult h request)
   /\ emitsOnly (loggedTo (logger (base h))) (getOperationInfo h request)
   /\ emitsOnly (loggedTo (logger (base h))) (cancelOperation h request))
  /\ logger (base (NewHTTPHandler opts)) = slog_Default.
Proof.
  split; [|reflexivity].
  unfold startOperation, getOperationResult, getOperationResult_call, getOperationInfo,
    cancelOperation, applyToHTTPResponse, OperationResponseSync_applyToHTTPResponse,
    OperationResponseAsync_applyToHTTPResponse, logger_Error, logger_Warn.
  repeat split;
    emits; try exact I; try reflexivity; try apply writeFailure_logs;
    try apply writeResult_logs; try apply contentHeaders_emits.
Qed.







End Invariants.

Section FailureWriterMore.
Context {rt : Runtime}.

(** ** More on the failure writer *)

(** The events before [writeFailure_respond] only come before its own;
    its response does not depend on them. *)
Lemma writeFailure_respond_frame (h : baseHTTPHandler) (failure : option Failure)
    (statusCode : Z) (w : ResponseWriter) :
  exists t r, forall evs,
    effects_of (writeFailure_respond h failure statusCode
                  {| writer := w; effects := evs |}) = (evs ++ t)%list
    /\ response_of (writeFailure_respond h failure statusCode
                      {| writer := w; effects := evs |}) = r.
Proof.
  destruct w as [hdr wh code sent body we]. unfold writeFailure_respond.
  destruct failure as [f|]; [destruct (json_Marshal_Failure f) as [b|me]|];
    destruct wh, we; eexists _, _; intros evs; run; observe; split; reflexivity.
Qed.

Lemma writeFailure_wrap_response (h : baseHTTPHandler) (msg : string) (err : error)
    (s : St) :
  response_of (writeFailure h (ErrWrap msg err) s) = response_of (writeFailure h err s).
Proof.
  unfold writeFailure.
  cbn [errors_As_UnsuccessfulOperationError errors_As_HandlerError].
  destruct (errors_As_UnsuccessfulOperationError err) as [e|]; [reflexivity|].
  destruct (errors_As_HandlerError err) as [e|]; [reflexivity|].
  destruct s as [w evs]. cbv [bind logger_Error emit writer effects].
  destruct (writeFailure_respond_frame h
              (Some (FailureWithMessage "internal server error"))
              StatusInternalServerError w) as (t & r & Hframe).
  rewrite (proj2 (Hframe _)), (proj2 (Hframe _)). reflexivity.
Qed.

(** X4. Wrapping an error with [fmt.Errorf("...: %w", err)] does not
    change the response of the failure writer, for any error and from any
    state; this holds at every depth of wrapping. *)
Theorem writeFailure_response_through_wraps (h : baseHTTPHandler)
    (msgs : list string) (err : error) (s : St) :
  response_of (writeFailure h (foldr ErrWrap err msgs) s)
  = response_of (writeFailure h err s).
Proof.
  induction msgs as [|msg msgs IH]; [reflexivity|].
  cbn [foldr]. rewrite writeFailure_wrap_response. exact IH.
Qed.

(** The switch changes the writer only at [OPERATION_CANCELED]. *)
Lemma handlerErrorStatus_writer (h : baseHTTPHandler) (typ : HandlerErrorType)
    (s : St) :
  exists code p,
    handlerErrorStatus h typ s
    = Returned code
        {| writer := if String.eqb typ HandlerErrorTypeOperationCanceled
                     then rw_HeaderSet headerOperationState OperationStateCanceled
                            (writer s)
                     else writer s;
           effects := (effects s ++ p)%list |}.
Proof.
  destruct s as [w evs]. unfold handlerErrorStatus.
  destruct (String.eqb typ HandlerErrorTypeOperationCanceled);
    [by eexists _, [_]|].
  repeat match goal with
         | |- context [if String.eqb typ ?k then _ else _] =>
             destruct (String.eqb typ k)
         end; run;
    first [ by eexists _, [_]
          | exists 521, []; by rewrite app_nil_r
          | exists 520, []; by rewrite app_nil_r
          | eexists _, []; by rewrite app_nil_r ].
Qed.

(** X5. When [json.Marshal] fails on the failure that the failure writer
    picked for an error, the response is 500 with an empty body and the
    [Content-Type] the writer had before, whatever status the error itself
    would have had. *)
Theorem writeFailure_marshal_error (h : baseHTTPHandler) (err : error)
    (f : Failure) (me : error) (s : St) :
  selectedFailure err = Some f ->
  json_Marshal_Failure f = inr me ->
  NotStarted (writer s) ->
  exists r,
    response_of (writeFailure h err s) = Some r
    /\ StatusCode r = 500
    /\ rBody r = ""
    /\ Header_Get (rHeader r) headerContentType
       = Header_Get (rw_header (writer s)) headerContentType.
Proof.
  intros Hsel Hm Hs. unfold selectedFailure in Hsel. unfold writeFailure.
  destruct (errors_As_UnsuccessfulOperationError err) as [e|].
  - injection Hsel as <-. fresh_state s.
    destruct (String.eqb (uoeState e) OperationStateFailed
              || String.eqb (uoeState e) OperationStateCanceled).
    + cbv [bind writer_Header_Set emit onWriter writer effects rw_HeaderSet
           rw_header rw_wroteHeader rw_code rw_sent rw_body rw_writeErr].
      rewrite (writeFailure_respond_marshal_error _ _ _ _ _ _ _ _ _ _ Hm).
      eexists. split; [reflexivity|]. observe. repeat split.
      apply Header_Get_Set_ne. vm_compute. discriminate.
    + run. eexists. split; [reflexivity|]. repeat split.
  - destruct (errors_As_HandlerError err) as [e|].
    + unfold bind.
      destruct (handlerErrorStatus_writer h (Type_ e) s) as (code & p & ->).
      rewrite Hsel. fresh_state s.
      destruct (String.eqb (Type_ e) HandlerErrorTypeOperationCanceled);
        cbv [rw_HeaderSet rw_header rw_wroteHeader rw_code rw_sent rw_body rw_writeErr];
        rewrite (writeFailure_respond_marshal_error _ _ _ _ _ _ _ _ _ _ Hm);
        eexists; (split; [reflexivity|]); observe; repeat split.
      apply Header_Get_Set_ne. vm_compute. discriminate.
    + injection Hsel as <-. fresh_state s. cbv [bind logger_Error emit writer effects].
      rewrite (writeFailure_respond_marshal_error _ _ _ _ _ _ _ _ _ _ Hm).
      eexists. split; [reflexivity|]. observe. repeat split.
Qed.

(** X6. A handler error whose kind has a case in the switch, with no
    failure or one that marshals, on a healthy writer that has not
    started: the status is that of the case (424, 521, 520, 400, 403, 401,
    404, 501, 500 in the order of the switch); the body is empty without
    a failure and the marshalled failure, with content type JSON, with
    one; [Nexus-Operation-State] is "canceled" for [OPERATION_CANCELED]
    and untouched for every other kind. *)
Theorem writeFailure_handler_error_cases
    (h : baseHTTPHandler) (err : error) (e : HandlerError) (code : Z) (s : St) :
  errors_As_UnsuccessfulOperationError err = None ->
  errors_As_HandlerError err = Some e ->
  In (Type_ e, code) casedKinds ->
  (forall f, heFailure e = Some f -> exists b, json_Marshal_Failure f = inl b) ->
  NotStarted (writer s) ->
  rw_writeErr (writer s) = None ->
  exists r,
    response_of (writeFailure h err s) = Some r
    /\ StatusCode r = code
    /\ match heFailure e with
       | Some f => json_Marshal_Failure f = inl (rBody r)
                   /\ Header_Get (rHeader r) headerContentType = contentTypeJSON
       | None => rBody r = ""
                 /\ Header_Get (rHeader r) headerContentType
                    = Header_Get (rw_header (writer s)) headerContentType
       end
    /\ Header_Get (rHeader r) headerOperationState
       = if String.eqb (Type_ e) HandlerErrorTypeOperationCanceled then "canceled"
         else Header_Get (rw_header (writer s)) headerOperationState.
Proof.
  intros Hu He Hin Hm Hs Hw. unfold writeFailure. rewrite Hu, He. unfold bind.
  assert (exists evs',
             handlerErrorStatus h (Type_ e) s
             = Returned code
                 {| writer := if String.eqb (Type_ e) HandlerErrorTypeOperationCanceled
                              then rw_HeaderSet headerOperationState
                                     OperationStateCanceled (writer s)
                              else writer s;
                    effects := evs' |}) as [evs' ->].
  { destruct s as [w evs]. cbn [In casedKinds] in Hin.
    repeat (destruct Hin as [Hin | Hin];
            [injection Hin as <- <-; eexists; reflexivity |]).
    contradiction. }
  fresh_state s.
  destruct (String.eqb (Type_ e) HandlerErrorTypeOperationCanceled);
    destruct (heFailure e) as [f|] eqn:Hf;
    cbv [rw_HeaderSet rw_header rw_wroteHeader rw_code rw_sent rw_body rw_writeErr];
    try (destruct (Hm f eq_refl) as [b Hb];
         rewrite (writeFailure_respond_ok _ _ _ _ _ _ _ _ Hb));
    try rewrite writeFailure_respond_nil;
    eexists; (split; [reflexivity|]); observe; (split; [reflexivity|]);
    repeat split; try assumption; try apply Header_Get_Set;
    try (rewrite Header_Get_Set_ne by (vm_compute; discriminate));
    try apply Header_Get_Set; try reflexivity;
    try (apply Header_Get_Set_ne; vm_compute; discriminate).
Qed.

(** X7. A handler error whose kind has no case in the switch (the empty
    kind, which the declaration says defaults to [INTERNAL], the declared
    [OPERATION_FAILED], any other string) gets the response of an
    [INTERNAL] error with the same failure; the one difference is a log
    record "unexpected handler error type" before everything else. *)
Theorem writeFailure_kind_without_case
    (h : baseHTTPHandler) (err : error) (e : HandlerError) (s : St) :
  errors_As_UnsuccessfulOperationError err = None ->
  errors_As_HandlerError err = Some e ->
  ~ In (Type_ e) (List.map fst casedKinds) ->
  let internal :=
    ErrHandlerError {| Type_ := HandlerErrorTypeInternal; heFailure := heFailure e |} in
  response_of (writeFailure h err s) = response_of (writeFailure h internal s)
  /\ exists tail,
       effects_of (writeFailure h internal s) = (effects s ++ tail)%list
       /\ effects_of (writeFailure h err s)
          = (effects s ++ EvLog (logger h) LevelError "unexpected handler error type"
                            [("type", AttrString (Type_ e))] :: tail)%list.
Proof.
  intros Hu He Hnot internal. unfold writeFailure, internal.
  cbn [errors_As_UnsuccessfulOperationError errors_As_HandlerError Type_ heFailure].
  rewrite Hu, He. unfold bind.
  assert (handlerErrorStatus h (Type_ e) s
          = Returned 500
              {| writer := writer s;
                 effects := (effects s ++ [EvLog (logger h) LevelError
                                             "unexpected handler error type"
                                             [("type", AttrString (Type_ e))]])%list |})
    as ->.
  { unfold handlerErrorStatus.
    repeat match goal with
           | |- context [if String.eqb (Type_ e) ?k then _ else _] =>
               rewrite (String_eqb_neq (Type_ e) k)
                 by (intros Heq; apply Hnot; rewrite Heq; cbn; tauto)
           end.
    reflexivity. }
  change (handlerErrorStatus h HandlerErrorTypeInternal s)
    with (Returned StatusInternalServerError s).
  destruct s as [w evs]. cbn [writer effects].
  destruct (writeFailure_respond_frame h (heFailure e) 500 w) as (t & r & Hframe).
  change StatusInternalServerError with 500.
  split.
  - rewrite (proj2 (Hframe _)), (proj2 (Hframe _)). reflexivity.
  - exists t. rewrite (proj1 (Hframe _)), (proj1 (Hframe _)).
    rewrite <- app_assoc. split; reflexivity.
Qed.

End FailureWriterMore.

Section Endpoints.
Context {rt : Runtime}.

(** ** The endpoints *)

(** X8. Cancel, for a path that decodes and a user handler that returns
    no error: the handler is called once with the decoded operation and
    id under the request's own context, then the status line 202 is
    written; no header is set and there is no body. *)
Theorem cancelOperation_accepted
    (h : httpHandler) (hd : Handler) (request : Request)
    (prefix operationIDEscaped operationID operation : string) (s : St) :
  path_Split (path_Dir (EscapedPath request)) = (prefix, operationIDEscaped) ->
  url_PathUnescape operationIDEscaped = Some operationID ->
  url_PathUnescape (path_Base prefix) = Some operation ->
  opt_Handler (options h) = Some hd ->
  CancelOperation hd RequestContext operation operationID
    {| coHeader := reqHeader request |} = None ->
  NotStarted (writer s) ->
  response_of (cancelOperation h request s)
  = Some {| StatusCode := 202; rHeader := rw_header (writer s); rBody := "" |}
  /\ effects_of (cancelOperation h request s)
     = (effects s ++ [ EvCall (CallCancelOperation RequestContext operation operationID
                                 {| coHeader := reqHeader request |});
                       EvWriteHeader 202 ])%list.
Proof.
  intros Hsplit Hid Hop Hh Hcancel Hs. unfold cancelOperation.
  rewrite Hsplit, Hid, Hop, Hh. fresh_state s. run. rewrite Hcancel.
  run. rewrite <- app_assoc. split; reflexivity.
Qed.

(** X9. Get info, for a path that decodes, a user handler that returns
    an info and no error, and an info that marshals to [b], on a healthy
    writer that has not started: the response is 200 with content type
    JSON and body [b]; the status line is never written explicitly, the
    first write of the body sends it. *)
Theorem getOperationInfo_ok
    (h : httpHandler) (hd : Handler) (request : Request)
    (prefix operationIDEscaped operationID operation : string)
    (info : OperationInfo) (b : string) (s : St) :
  path_Split (EscapedPath request) = (prefix, operationIDEscaped) ->
  url_PathUnescape operationIDEscaped = Some operationID ->
  url_PathUnescape (path_Base prefix) = Some operation ->
  opt_Handler (options h) = Some hd ->
  GetOperationInfo hd RequestContext operation operationID
    {| giHeader := reqHeader request |} = (Some info, None) ->
  json_Marshal_OperationInfo info = inl b ->
  NotStarted (writer s) ->
  rw_writeErr (writer s) = None ->
  response_of (getOperationInfo h request s)
  = Some {| StatusCode := 200;
            rHeader := Header_Set (rw_header (writer s)) headerContentType
                         contentTypeJSON;
            rBody := b |}
  /\ effects_of (getOperationInfo h request s)
     = (effects s ++ [ EvCall (CallGetOperationInfo RequestContext operation
                                 operationID {| giHeader := reqHeader request |});
                       EvHeaderSet headerContentType contentTypeJSON;
                       EvWrite b ])%list.
Proof.
  intros Hsplit Hid Hop Hh Hinfo Hm Hs Hw. unfold getOperationInfo.
  rewrite Hsplit, Hid, Hop, Hh. fresh_state s. run. rewrite Hinfo, Hm.
  run. rewrite <- !app_assoc. split; reflexivity.
Qed.



End Endpoints.

Section Construction.
Context {rt : Runtime}.

(** ** The constructor and what the endpoints get from it *)

Lemma NewHTTPHandler_handler (opts : HandlerOptions) :
  opt_Handler (options (NewHTTPHandler opts)) = opt_Handler opts.
Proof.
  destruct opts as [hd [l|] t [c|]];
    cbv [NewHTTPHandler options opt_Logger opt_GetResultTimeout opt_Codec opt_Handler];
    destruct (Z.eqb t 0); reflexivity.
Qed.

Lemma NewHTTPHandler_timeout (opts : HandlerOptions) :
  opt_GetResultTimeout (options (NewHTTPHandler opts))
  = if Z.eqb (opt_GetResultTimeout opts) 0 then time_Minute
    else opt_GetResultTimeout opts.
Proof.
  destruct opts as [hd [l|] t [c|]];
    cbv [NewHTTPHandler options opt_Logger opt_GetResultTimeout opt_Codec opt_Handler];
    destruct (Z.eqb t 0); reflexivity.
Qed.

(** X12. The options that [NewHTTPHandler] stores: the handler as given
    (also when nil), a timeout of one minute in place of zero and the
    given timeout otherwise (so never zero), the given codec or the
    default one (so never nil), a logger that is never nil.  Building a
    handler from the stored options gives the same handler again. *)
Theorem NewHTTPHandler_defaults (opts : HandlerOptions) :
  let stored := options (NewHTTPHandler opts) in
  opt_Handler stored = opt_Handler opts
  /\ opt_GetResultTimeout stored
     = (if Z.eqb (opt_GetResultTimeout opts) 0 then time_Minute
        else opt_GetResultTimeout opts)
  /\ opt_GetResultTimeout stored <> 0
  /\ opt_Codec stored = Some (match opt_Codec opts with
                              | Some c => c
                              | None => DefaultCodec
                              end)
  /\ opt_Logger stored <> None
  /\ NewHTTPHandler stored = NewHTTPHandler opts.
Proof.
  destruct opts as [hd lg t c].
  destruct lg, c, (Z.eqb t 0) eqn:Ht;
    cbv [NewHTTPHandler options opt_Logger opt_GetResultTimeout opt_Codec opt_Handler];
    rewrite ?Ht; cbv [options opt_Logger opt_GetResultTimeout opt_Codec opt_Handler];
    try rewrite Ht;
    repeat split; try discriminate; try reflexivity;
    try (apply Z.eqb_neq; exact Ht).
Qed.

Lemma answer_effects (h : httpHandler) (ctx : context_Context)
    (opts : GetOperationResultOptions) (answer : Any * option error) (s : St) :
  exists tail,
    effects_of
      (match answer with
       | (_, Some err) =>
           if Z.ltb 0 (Wait opts) && notNil (ctx_Err ctx) then
             writer_WriteHeader StatusRequestTimeout
           else if errors_Is_ErrOperationStillRunning err then
             writer_WriteHeader statusOperationRunning
           else writeFailure (base h) err
       | (result, None) => writeResult h result
       end s)
    = (effects s ++ tail)%list.
Proof.
  assert (emitsOnly (loggedTo (logger (base h)))
            (match answer with
             | (_, Some err) =>
                 if Z.ltb 0 (Wait opts) && notNil (ctx_Err ctx) then
                   writer_WriteHeader StatusRequestTimeout
                 else if errors_Is_ErrOperationStillRunning err then
                   writer_WriteHeader statusOperationRunning
                 else writeFailure (base h) err
             | (result, None) => writeResult h result
             end)) as H.
  { emits; try exact I; try apply writeFailure_logs; apply writeResult_logs. }
  destruct (H s) as (tail & Htail & _). by exists tail.
Qed.

(** X13. The deadline of a long poll is decoupled from the wait.  On a
    handler made by [NewHTTPHandler], a get-result request whose wait
    parses to [d] calls the user handler first of all, once the path is
    decoded, under a context whose timeout is the configured
    [GetResultTimeout], or one minute when that is zero, whatever [d] is;
    [d] itself is passed on as [Wait]. *)
Theorem getOperationResult_long_poll_context
    (opts : HandlerOptions) (hd : Handler) (request : Request)
    (prefix operationIDEscaped operationID operation : string) (d : Z) (s : St) :
  path_Split (path_Dir (EscapedPath request)) = (prefix, operationIDEscaped) ->
  url_PathUnescape operationIDEscaped = Some operationID ->
  url_PathUnescape (path_Base prefix) = Some operation ->
  Values_Get (Query request) queryWait <> "" ->
  time_ParseDuration (Values_Get (Query request) queryWait) = Some d ->
  opt_Handler opts = Some hd ->
  exists tail,
    effects_of (getOperationResult (NewHTTPHandler opts) request s)
    = (effects s
       ++ EvCall (CallGetOperationResult
                    (WithTimeout RequestContext
                       (if Z.eqb (opt_GetResultTimeout opts) 0 then time_Minute
                        else opt_GetResultTimeout opts))
                    operation operationID
                    {| grHeader := reqHeader request; Wait := d |})
       :: tail)%list.
Proof.
  intros Hsplit Hid Hop Hne Hd Hh.
  pose proof (NewHTTPHandler_handler opts) as Hhd.
  pose proof (NewHTTPHandler_timeout opts) as Ht.
  rewrite (getOperationResult_parsed _ _ _ _ _ _ _ Hsplit Hid Hop Hne Hd).
  rewrite (getOperationResult_call_run _ hd) by (rewrite Hhd; exact Hh).
  rewrite Ht.
  edestruct answer_effects as (tail & ->). exists tail.
  unfold afterCall. cbn [effects]. rewrite <- app_assoc. reflexivity.
Qed.

(** X14. [NewHTTPHandler] accepts options without a handler.  On the
    handler it then makes, every request whose path decodes (and, for get
    result, whose wait is absent or parses) ends in a panic at the call of
    the user handler: there is no response, and nothing was written or
    logged before. *)
Theorem endpoints_without_handler (opts : HandlerOptions) (request : Request)
    (s : St) :
  opt_Handler opts = None ->
  let h := NewHTTPHandler opts in
  let dropped (m : M unit) :=
    response_of (m s) = None /\ effects_of (m s) = effects s in
  let decodes (p : string * string) :=
    url_PathUnescape p.2 <> None /\ url_PathUnescape (path_Base p.1) <> None in
  (url_PathUnescape (path_Base (EscapedPath request)) <> None ->
   dropped (startOperation h request))
  /\ (decodes (path_Split (path_Dir (EscapedPath request))) ->
      Values_Get (Query request) queryWait = ""
      \/ time_ParseDuration (Values_Get (Query request) queryWait) <> None ->
      dropped (getOperationResult h request))
  /\ (decodes (path_Split (EscapedPath request)) ->
      dropped (getOperationInfo h request))
  /\ (decodes (path_Split (path_Dir (EscapedPath request))) ->
      dropped (cancelOperation h request)).
Proof.
  intros Hnil h dropped decodes.
  assert (opt_Handler (options h) = None) as Hh.
  { unfold h. rewrite NewHTTPHandler_handler. exact Hnil. }
  clearbody h. unfold dropped, decodes.
  unfold startOperation, getOperationResult, getOperationResult_call,
    getOperationInfo, cancelOperation.
  rewrite Hh. split; [|split; [|split]].
  - intros Hop.
    destruct (url_PathUnescape (path_Base (EscapedPath request))); [|congruence].
    unfold bind.
    destruct (contentHeaders_state (map_to_list (reqHeader request)) ∅ s)
      as [[header ->] | ->]; split; reflexivity.
  - destruct (path_Split _) as [prefix operationIDEscaped]; cbn [fst snd].
    intros [Hid Hop] Hwait.
    destruct (url_PathUnescape operationIDEscaped); [|congruence].
    destruct (url_PathUnescape (path_Base prefix)); [|congruence].
    destruct Hwait as [-> | Hwait]; [split; reflexivity|].
    destruct (negb _); [|split; reflexivity].
    destruct (time_ParseDuration _); [|congruence]. split; reflexivity.
  - destruct (path_Split _) as [prefix operationIDEscaped]; cbn [fst snd].
    intros [Hid Hop].
    destruct (url_PathUnescape operationIDEscaped); [|congruence].
    destruct (url_PathUnescape (path_Base prefix)); [|congruence].
    split; reflexivity.
  - destruct (path_Split _) as [prefix operationIDEscaped]; cbn [fst snd].
    intros [Hid Hop].
    destruct (url_PathUnescape operationIDEscaped); [|congruence].
    destruct (url_PathUnescape (path_Base prefix)); [|congruence].
    split; reflexivity.
Qed.

End Construction.

Section Streams.
Context {rt : Runtime}.

(** ** Streams in and out *)

Lemma Header_Get_Set_same_key (hdr : Header) (k k' v : string) :
  CanonicalMIMEHeaderKey k' = CanonicalMIMEHeaderKey k ->
  Header_Get (Header_Set hdr k' v) k = v.
Proof.
  intros Hk. unfold Header_Get, Header_Set. rewrite Hk. by rewrite lookup_insert_eq.
Qed.

Lemma foldl_Header_Set_keeps (kvs : list (string * string)) (hdr : Header)
    (k val : string) :
  (forall k' v', (k', v') ∈ kvs ->
                 CanonicalMIMEHeaderKey k' = CanonicalMIMEHeaderKey k -> v' = val) ->
  Header_Get hdr k = val ->
  Header_Get (foldl (fun h kv => Header_Set h kv.1 kv.2) hdr kvs) k = val.
Proof.
  revert hdr. induction kvs as [|[k0 v0] kvs IH]; intros hdr Hsame Hget; [exact Hget|].
  cbn [foldl fst snd]. apply IH.
  - intros k' v' Hin. apply Hsame. by right.
  - destruct (decide (CanonicalMIMEHeaderKey k0 = CanonicalMIMEHeaderKey k)) as [Heq|Hne].
    + rewrite (Header_Get_Set_same_key _ _ _ _ Heq).
      apply (Hsame k0 v0); [by left | exact Heq].
    + by rewrite Header_Get_Set_ne.
Qed.

Lemma foldl_Header_Set_lookup (kvs : list (string * string)) (hdr : Header)
    (k val : string) :
  (k, val) ∈ kvs ->
  (forall k' v', (k', v') ∈ kvs ->
                 CanonicalMIMEHeaderKey k' = CanonicalMIMEHeaderKey k -> v' = val) ->
  Header_Get (foldl (fun h kv => Header_Set h kv.1 kv.2) hdr kvs) k = val.
Proof.
  revert hdr. induction kvs as [|[k0 v0] kvs IH]; intros hdr Hin Hsame.
  - by apply elem_of_nil in Hin.
  - cbn [foldl fst snd]. apply elem_of_cons in Hin as [Hhead | Htail].
    + injection Hhead as <- <-. apply foldl_Header_Set_keeps.
      * intros k' v' Hin'. apply Hsame. by right.
      * apply Header_Get_Set.
    + apply IH; [exact Htail|]. intros k' v' Hin'. apply Hsame. by right.
Qed.

(** X15. A result that is no stream, with a codec that serialises it to
    a stream, on a healthy writer that has not started: the response is
    200, its body is the bytes of the stream (also when there are none),
    and each header of the stream whose canonical key no other header of
    the stream shares is on the response with its value. *)
Theorem writeResult_value
    (h : httpHandler) (v : Value) (codec : Codec) (st : Stream) (s : St) :
  opt_Codec (options h) = Some codec ->
  Serialize codec (AnyValue v) = (Some st, None) ->
  NotStarted (writer s) ->
  rw_writeErr (writer s) = None ->
  exists r,
    response_of (writeResult h (AnyValue v) s) = Some r
    /\ StatusCode r = 200
    /\ rBody r = rd_data (sReader st)
    /\ forall k val,
         sHeader st !! k = Some val ->
         (forall k', is_Some (sHeader st !! k') ->
                     CanonicalMIMEHeaderKey k' = CanonicalMIMEHeaderKey k -> k' = k) ->
         Header_Get (rHeader r) k = val.
Proof.
  intros Hc Hser Hs Hw. unfold writeResult. rewrite Hc. cbv [deref bind ret].
  rewrite Hser. rewrite (writeResult_stream_copies h st s Hs Hw).
  eexists. split; [reflexivity|]. cbn [StatusCode rBody rHeader].
  split; [reflexivity|]. split; [reflexivity|].
  intros k val Hk Huniq. apply foldl_Header_Set_lookup.
  - by apply elem_of_map_to_list.
  - intros k' v' Hin Hcanon. apply elem_of_map_to_list in Hin.
    assert (k' = k) as -> by (apply Huniq; [by eexists | exact Hcanon]).
    congruence.
Qed.

(** X16. When the codec fails to serialise a result, the response is the
    one the failure writer gives for the codec's own error: the wrapping
    in "failed to serialize handler result" does not show on the wire. *)
Theorem writeResult_serialize_error
    (h : httpHandler) (v : Value) (codec : Codec) (st : option Stream)
    (err : error) (s : St) :
  opt_Codec (options h) = Some codec ->
  Serialize codec (AnyValue v) = (st, Some err) ->
  response_of (writeResult h (AnyValue v) s)
  = response_of (writeFailure (base h) err s).
Proof.
  intros Hc Hser. unfold writeResult. rewrite Hc. cbv [deref bind ret].
  rewrite Hser. apply writeFailure_wrap_response.
Qed.

Lemma contentHeaders_list (kvs : list (string * list string)) (acc : StringMap)
    (s : St) :
  NoDup kvs.*1 ->
  (forall k vs, (k, vs) ∈ kvs -> strings_HasPrefix k "Content-" = true -> vs <> []) ->
  exists header,
    contentHeaders kvs acc s = Returned header s
    /\ forall k,
         header !! k
         = match (list_to_map kvs : Header) !! k with
           | Some vs => if strings_HasPrefix k "Content-" then head vs else acc !! k
           | None => acc !! k
           end.
Proof.
  revert acc. induction kvs as [|[k0 vs0] kvs IH]; intros acc Hnd Hne.
  - exists acc. split; [reflexivity|]. intros k. cbn [list_to_map foldr].
    by rewrite lookup_empty.
  - cbn [fmap list_fmap fst] in Hnd. apply NoDup_cons in Hnd as [Hk0 Hnd].
    assert ((list_to_map kvs : Header) !! k0 = None) as Hnone
      by (by apply not_elem_of_list_to_map_1).
    cbn [contentHeaders list_to_map foldr].
    destruct (strings_HasPrefix k0 "Content-") eqn:Hp.
    + destruct vs0 as [|v vs0].
      { exfalso. apply (Hne k0 []); [by left | exact Hp | reflexivity]. }
      destruct (IH (<[k0:=v]> acc) Hnd) as (header & Hrun & Hlook).
      { intros k vs Hin. apply Hne. by right. }
      exists header. split; [exact Hrun|]. intros k. rewrite Hlook.
      destruct (decide (k0 = k)) as [<-|Hk].
      * rewrite Hnone, !lookup_insert_eq, Hp. reflexivity.
      * rewrite !lookup_insert_ne by exact Hk. reflexivity.
    + destruct (IH acc Hnd) as (header & Hrun & Hlook).
      { intros k vs Hin. apply Hne. by right. }
      exists header. split; [exact Hrun|]. intros k. rewrite Hlook.
      destruct (decide (k0 = k)) as [<-|Hk].
      * rewrite Hnone, lookup_insert_eq, Hp. reflexivity.
      * rewrite lookup_insert_ne by exact Hk. reflexivity.
Qed.

Lemma contentHeaders_empty_value (kvs : list (string * list string))
    (acc : StringMap) (k : string) (s : St) :
  (k, []) ∈ kvs -> strings_HasPrefix k "Content-" = true ->
  contentHeaders kvs acc s = Panicked indexOutOfRange s.
Proof.
  revert acc. induction kvs as [|[k0 vs0] kvs IH]; intros acc Hin Hp.
  - by apply elem_of_nil in Hin.
  - cbn [contentHeaders]. apply elem_of_cons in Hin as [Hhead | Htail].
    + injection Hhead as <- <-. rewrite Hp. reflexivity.
    + destruct (strings_HasPrefix k0 "Content-"); [destruct vs0|]; auto.
Qed.

(** X17. The headers of the input stream that start hands to the user
    handler, read off the request header [m].  When no header whose key
    starts with [Content-] has an empty list of values, the stream has
    exactly those headers, each with its first value, and no other header
    of the request; when one has an empty list, the loop panics on
    [vs[0]]. *)
Theorem startOperation_content_headers (m : Header) (s : St) :
  ((forall k, strings_HasPrefix k "Content-" = true -> m !! k <> Some []) ->
   exists header,
     contentHeaders (map_to_list m) ∅ s = Returned header s
     /\ forall k,
          header !! k
          = if strings_HasPrefix k "Content-" then m !! k ≫= head else None)
  /\ (forall k, strings_HasPrefix k "Content-" = true -> m !! k = Some [] ->
      contentHeaders (map_to_list m) ∅ s = Panicked indexOutOfRange s).
Proof.
  split.
  - intros Hne.
    destruct (contentHeaders_list (map_to_list m) ∅ s) as (header & Hrun & Hlook).
    + apply NoDup_fst_map_to_list.
    + intros k vs Hin Hp ->. apply elem_of_map_to_list in Hin. by apply (Hne k).
    + exists header. split; [exact Hrun|]. intros k. rewrite Hlook.
      rewrite list_to_map_to_list, lookup_empty.
      destruct (m !! k) as [vs|]; destruct (strings_HasPrefix k "Content-");
        reflexivity.
  - intros k Hp Hk. apply (contentHeaders_empty_value _ _ k); [|exact Hp].
    by apply elem_of_map_to_list.
Qed.

End Streams.

(** ** How often and in which order an endpoint acts *)

Lemma emitsOnly_impl (Q Q' : Event -> Prop) {A} (m : M A) :
  (forall e, Q e -> Q' e) -> emitsOnly Q m -> emitsOnly Q' m.
Proof.
  intros HQ Hm s. destruct (Hm s) as (evs & Heq & Hall).
  exists evs. split; [exact Heq|]. by eapply Forall_impl.
Qed.

Lemma filter_none (f : Event -> bool) (evs : list Event) :
  Forall (fun e => f e = false) evs -> List.filter f evs = [].
Proof.
  induction 1 as [|e evs He _ IH]; [reflexivity|]. cbn. by rewrite He.
Qed.

Section Counting.
Context (f : Event -> bool).

Lemma emitsAtMostOne_none {A} (m : M A) :
  emitsOnly (fun e => f e = false) m -> emitsAtMostOne f m.
Proof.
  intros Hm s. destruct (Hm s) as (evs & Heq & Hall). exists evs.
  split; [exact Heq|]. rewrite (filter_none _ _ Hall). cbn. lia.
Qed.

Lemma emitsAtMostOne_emit (e : Event) : emitsAtMostOne f (emit e).
Proof.
  intros s. exists [e]. split; [reflexivity|]. cbn. destruct (f e); cbn; lia.
Qed.

Lemma emitsAtMostOne_bind_left {A B} (m : M A) (k : A -> M B) :
  emitsOnly (fun e => f e = false) m ->
  (forall a, emitsAtMostOne f (k a)) ->
  emitsAtMostOne f (bind m k).
Proof.
  intros Hm Hk s. destruct (Hm s) as (e1 & H1 & F1). unfold bind.
  destruct (m s) as [a s1 | msg s1]; cbn [effects_of] in H1.
  - destruct (Hk a s1) as (e2 & H2 & F2). exists (e1 ++ e2)%list.
    rewrite H2, H1, app_assoc. split; [reflexivity|].
    rewrite List.filter_app, (filter_none _ _ F1). exact F2.
  - exists e1. split; [exact H1|]. rewrite (filter_none _ _ F1). cbn. lia.
Qed.

Lemma emitsAtMostOne_bind_right {A B} (m : M A) (k : A -> M B) :
  emitsAtMostOne f m ->
  (forall a, emitsOnly (fun e => f e = false) (k a)) ->
  emitsAtMostOne f (bind m k).
Proof.
  intros Hm Hk s. destruct (Hm s) as (e1 & H1 & F1). unfold bind.
  destruct (m s) as [a s1 | msg s1]; cbn [effects_of] in H1.
  - destruct (Hk a s1) as (e2 & H2 & F2). exists (e1 ++ e2)%list.
    rewrite H2, H1, app_assoc. split; [reflexivity|].
    rewrite List.filter_app, (filter_none _ _ F2), app_nil_r. exact F1.
  - exists e1. by split.
Qed.

End Counting.

Lemma callsFirst_none {A} (m : M A) :
  emitsOnly (fun e => isCall e = false) m -> callsFirst m.
Proof.
  intros Hm s. destruct (Hm s) as (evs & Heq & Hall). exists evs.
  split; [exact Heq | by left].
Qed.

Lemma callsFirst_silent {A B} (m : M A) (k : A -> M B) :
  emitsOnly (fun _ => False) m -> (forall a, callsFirst (k a)) ->
  callsFirst (bind m k).
Proof.
  intros Hm Hk s. destruct (Hm s) as (e1 & H1 & F1).
  assert (e1 = []) as -> by (destruct F1; [reflexivity | contradiction]).
  rewrite app_nil_r in H1. unfold bind.
  destruct (m s) as [a s1 | msg s1]; cbn [effects_of] in H1.
  - destruct (Hk a s1) as (e2 & H2 & F2). exists e2. rewrite H2, H1. by split.
  - exists []. rewrite app_nil_r. split; [exact H1 | by left].
Qed.

Lemma callsFirst_call {B} (c : HandlerCall) (k : unit -> M B) :
  (forall u, emitsOnly (fun e => isCall e = false) (k u)) ->
  callsFirst (bind (emit (EvCall c)) k).
Proof.
  intros Hk s. cbv [bind emit]. edestruct (Hk tt) as (e2 & H2 & F2).
  exists (EvCall c :: e2). rewrite H2. cbn [effects]. rewrite <- app_assoc.
  split; [reflexivity|]. right. by exists c, e2.
Qed.

Section Order.
Context {rt : Runtime}.

Lemma writeFailure_respond_no_call (h : baseHTTPHandler) (failure : option Failure)
    (statusCode : Z) :
  emitsOnly (fun e => isCall e = false) (writeFailure_respond h failure statusCode).
Proof. unfold writeFailure_respond, logger_Error. emits; reflexivity. Qed.

Lemma writeFailure_no_call (h : baseHTTPHandler) (err : error) :
  emitsOnly (fun e => isCall e = false) (writeFailure h err).
Proof.
  unfold writeFailure, handlerErrorStatus, logger_Error.
  destruct (errors_As_UnsuccessfulOperationError err) as [e|];
    [|destruct (errors_As_HandlerError err) as [e|]].
  - destruct (_ || _); emits; try reflexivity; apply writeFailure_respond_no_call.
  - apply emitsOnly_bind; [|intros ?; apply writeFailure_respond_no_call].
    repeat match goal with
           | |- context [if String.eqb ?t ?k then _ else _] =>
               destruct (String.eqb t k)
           end; emits; reflexivity.
  - emits; try reflexivity. apply writeFailure_respond_no_call.
Qed.

Lemma writer_WriteHeader_one (code : Z) :
  emitsAtMostOne isWriteHeader (writer_WriteHeader code).
Proof.
  apply emitsAtMostOne_bind_right; [apply emitsAtMostOne_emit|]. intros _. emits.
Qed.

Lemma writeFailure_respond_one (h : baseHTTPHandler) (failure : option Failure)
    (statusCode : Z) :
  emitsAtMostOne isWriteHeader (writeFailure_respond h failure statusCode).
Proof.
  unfold writeFailure_respond, logger_Error. cbv zeta.
  destruct failure as [f|]; [destruct (json_Marshal_Failure f)|].
  - apply emitsAtMostOne_bind_left; [emits; reflexivity|]. intros _.
    apply emitsAtMostOne_bind_right; [apply writer_WriteHeader_one|].
    intros _. emits; reflexivity.
  - apply emitsAtMostOne_bind_left; [emits; reflexivity|]. intros _.
    apply writer_WriteHeader_one.
  - apply emitsAtMostOne_bind_right; [apply writer_WriteHeader_one|].
    intros _. emits; reflexivity.
Qed.

Lemma writeFailure_one (h : baseHTTPHandler) (err : error) :
  emitsAtMostOne isWriteHeader (writeFailure h err).
Proof.
  unfold writeFailure, handlerErrorStatus, logger_Error.
  destruct (errors_As_UnsuccessfulOperationError err) as [e|];
    [|destruct (errors_As_HandlerError err) as [e|]].
  - destruct (_ || _);
      (apply emitsAtMostOne_bind_left; [emits; reflexivity|]); intros _;
      [apply writeFailure_respond_one | apply writer_WriteHeader_one].
  - apply emitsAtMostOne_bind_left; [|intros ?; apply writeFailure_respond_one].
    repeat match goal with
           | |- context [if String.eqb ?t ?k then _ else _] =>
               destruct (String.eqb t k)
           end; emits; reflexivity.
  - apply emitsAtMostOne_bind_left; [emits; reflexivity|]. intros _.
    apply writeFailure_respond_one.
Qed.

Lemma writeResult_stream_quiet (f : Event -> bool) (h : httpHandler)
    (stream : option Stream) :
  (forall k v, f (EvHeaderSet k v) = false) ->
  (forall d, f (EvWrite d) = false) ->
  (forall l lvl msg attrs, f (EvLog l lvl msg attrs) = false) ->
  emitsOnly (fun e => f e = false) (writeResult_stream h stream).
Proof.
  intros Hh Hw Hl. unfold writeResult_stream, io_Copy, logger_Error.
  emits; auto. apply setHeaders_emits. auto.
Qed.

Lemma writeResult_no_call (h : httpHandler) (result : Any) :
  emitsOnly (fun e => isCall e = false) (writeResult h result).
Proof.
  unfold writeResult. cbv zeta. destruct result as [st|v];
    emits; try reflexivity; try apply writeFailure_no_call;
    apply writeResult_stream_quiet; reflexivity.
Qed.

Lemma writeResult_one (h : httpHandler) (result : Any) :
  emitsAtMostOne isWriteHeader (writeResult h result).
Proof.
  unfold writeResult. cbv zeta. destruct result as [st|v].
  - apply emitsAtMostOne_none. emits; try reflexivity.
    apply writeResult_stream_quiet; reflexivity.
  - apply emitsAtMostOne_bind_left; [apply emitsOnly_deref|]. intros codec.
    destruct (Serialize codec (AnyValue v)) as [stream [err|]].
    + apply writeFailure_one.
    + apply emitsAtMostOne_none. apply writeResult_stream_quiet; reflexivity.
Qed.

Lemma applyToHTTPResponse_no_call (r : OperationResponse) (h : httpHandler) :
  emitsOnly (fun e => isCall e = false) (applyToHTTPResponse r h).
Proof.
  unfold applyToHTTPResponse, OperationResponseSync_applyToHTTPResponse,
    OperationResponseAsync_applyToHTTPResponse, logger_Error.
  emits; try reflexivity. apply writeResult_no_call.
Qed.

Lemma applyToHTTPResponse_one (r : OperationResponse) (h : httpHandler) :
  emitsAtMostOne isWriteHeader (applyToHTTPResponse r h).
Proof.
  unfold applyToHTTPResponse, OperationResponseSync_applyToHTTPResponse,
    OperationResponseAsync_applyToHTTPResponse, logger_Error.
  destruct r as [value|id]; [apply writeResult_one|].
  destruct (json_Marshal_OperationInfo _).
  - apply emitsAtMostOne_bind_left; [emits; reflexivity|]. intros _.
    apply emitsAtMostOne_bind_right; [|intros _; emits; reflexivity].
    apply emitsAtMostOne_bind_right; [apply emitsAtMostOne_emit|].
    intros _. emits.
  - apply emitsAtMostOne_bind_left; [emits; reflexivity|]. intros _.
    apply emitsAtMostOne_bind_right; [apply emitsAtMostOne_emit|].
    intros _. emits.
Qed.

End Order.

(** Splits a goal [callsFirst m] down to the call of the user handler. *)
Ltac calls_first :=
  repeat lazymatch goal with
    | |- callsFirst (match ?x with _ => _ end) => destruct x
    | |- callsFirst (let (_, _) := ?x in _) => destruct x
    | |- callsFirst (bind (emit (EvCall _)) _) => apply callsFirst_call; intros ?
    | |- callsFirst (bind (deref _) _) =>
        apply callsFirst_silent; [apply emitsOnly_deref | intros ?]
    | |- callsFirst (bind (contentHeaders _ _) _) =>
        apply callsFirst_silent; [apply contentHeaders_emits | intros ?]
    | |- callsFirst _ => apply callsFirst_none
    end.

(** Splits a goal [emitsAtMostOne isWriteHeader m] down to the writers. *)
Ltac one_status_line :=
  repeat lazymatch goal with
    | |- emitsAtMostOne _ (match ?x with _ => _ end) => destruct x
    | |- emitsAtMostOne _ (let (_, _) := ?x in _) => destruct x
    | |- emitsAtMostOne _ (writeFailure _ _) => apply writeFailure_one
    | |- emitsAtMostOne _ (writeResult _ _) => apply writeResult_one
    | |- emitsAtMostOne _ (applyToHTTPResponse _ _) => apply applyToHTTPResponse_one
    | |- emitsAtMostOne _ (writer_WriteHeader _) => apply writer_WriteHeader_one
    | |- emitsAtMostOne _ (bind (deref _) _) =>
        apply emitsAtMostOne_bind_left; [apply emitsOnly_deref | intros ?]
    | |- emitsAtMostOne _ (bind (contentHeaders _ _) _) =>
        apply emitsAtMostOne_bind_left; [apply contentHeaders_emits | intros ?]
    | |- emitsAtMostOne _ (bind (emit _) _) =>
        apply emitsAtMostOne_bind_left; [apply emitsOnly_emit; reflexivity | intros ?]
    | |- emitsAtMostOne _ (bind (writer_Header_Set _ _) _) =>
        apply emitsAtMostOne_bind_left;
        [apply emitsOnly_Header_Set; reflexivity | intros ?]
    | |- emitsAtMostOne _ _ => apply emitsAtMostOne_none
    end.

Section EndpointOrder.
Context {rt : Runtime}.

(** X20. Start, end to end, for a request whose path decodes and whose
    [Content-] headers are usable, a user handler that answers with
    [OperationResponseAsync{operationID}] and an operation info that
    marshals to [b], on a healthy writer that has not started: the handler
    is called first, with the decoded operation, the request id of the
    [Nexus-Request-Id] header and the callback URL of the query; then the
    response is 201 with content type JSON and body [b]. *)
Theorem startOperation_async_created
    (h : httpHandler) (hd : Handler) (request : Request)
    (operation operationID : string) (header : StringMap) (b : string) (s : St) :
  url_PathUnescape (path_Base (EscapedPath request)) = Some operation ->
  contentHeaders (map_to_list (reqHeader request)) ∅ s = Returned header s ->
  opt_Handler (options h) = Some hd ->
  let opts := {| RequestID := Header_Get (reqHeader request) headerRequestID;
                 CallbackURL := Values_Get (Query request) queryCallbackURL;
                 soHeader := reqHeader request |} in
  let input := {| es_codec := opt_Codec (options h);
                  es_stream := {| sHeader := header; sReader := Body request |} |} in
  StartOperation hd RequestContext operation input opts
  = (Some (OperationResponseAsync operationID), None) ->
  json_Marshal_OperationInfo {| ID := operationID; State := "running" |} = inl b ->
  NotStarted (writer s) ->
  rw_writeErr (writer s) = None ->
  response_of (startOperation h request s)
  = Some {| StatusCode := 201;
            rHeader := Header_Set (rw_header (writer s)) headerContentType
                         contentTypeJSON;
            rBody := b |}
  /\ effects_of (startOperation h request s)
     = (effects s ++ [ EvCall (CallStartOperation RequestContext operation input opts);
                       EvHeaderSet headerContentType contentTypeJSON;
                       EvWriteHeader 201;
                       EvWrite b ])%list.
Proof.
  intros Hop Hhdr Hh opts input Hstart Hm Hs Hw.
  rewrite (startOperation_async h hd request operation operationID header s
             Hop Hhdr Hh Hstart).
  fold opts input. unfold OperationResponseAsync_applyToHTTPResponse.
  change OperationStateRunning with "running". rewrite Hm.
  fresh_state s. unfold afterCall. run. rewrite <- !app_assoc. split; reflexivity.
Qed.

(** X18. On every request and from every state, each endpoint calls the
    user handler at most once, and when it does the call is the first
    thing it does: nothing is logged, no header set, no status line or
    body written before the user handler has been called. *)
Theorem endpoints_call_handler_first (h : httpHandler) (request : Request) :
  callsFirst (startOperation h request)
  /\ callsFirst (getOperationResult h request)
  /\ callsFirst (getOperationInfo h request)
  /\ callsFirst (cancelOperation h request).
Proof.
  unfold startOperation, getOperationResult, getOperationResult_call,
    getOperationInfo, cancelOperation, logger_Warn, logger_Error.
  cbv zeta. repeat split; calls_first;
    emits; try reflexivity; try apply writeFailure_no_call;
    try apply writeResult_no_call; try apply applyToHTTPResponse_no_call.
Qed.

(** X19. On every request and from every state, each endpoint calls
    [WriteHeader] at most once, whatever the user handler, the codec,
    [json.Marshal] and [Write] answer: there is never a second status
    line. *)
Theorem endpoints_one_status_line (h : httpHandler) (request : Request) :
  emitsAtMostOne isWriteHeader (startOperation h request)
  /\ emitsAtMostOne isWriteHeader (getOperationResult h request)
  /\ emitsAtMostOne isWriteHeader (getOperationInfo h request)
  /\ emitsAtMostOne isWriteHeader (cancelOperation h request).
Proof.
  unfold startOperation, getOperationResult, getOperationResult_call,
    getOperationInfo, cancelOperation, logger_Warn, logger_Error.
  cbv zeta. repeat split; one_status_line;
    emits; reflexivity.
Qed.

End EndpointOrder.

(** ** The further theorems at concrete inputs *)

Lemma writeFailure_marshal_error_witness :
  exists r,
    response_of (@writeFailure Fixture.brokenJSON Test.baseHandler
                   (ErrHandlerError (newBadRequestError "foo")) initial) = Some r
    /\ StatusCode r = 500
    /\ rBody r = "".
Proof.
  destruct (@writeFailure_marshal_error Fixture.brokenJSON Test.baseHandler
              (ErrHandlerError (newBadRequestError "foo"))
              (FailureWithMessage "foo")
              (ErrOther "json: error calling MarshalJSON") initial)
    as (r & Hr & Hcode & Hbody & _).
  - reflexivity.
  - reflexivity.
  - split; reflexivity.
  - exists r. repeat split; assumption.
Defined.

Lemma writeFailure_handler_error_cases_witness :
  exists r,
    response_of (@writeFailure Std.inTime Test.baseHandler
                   (ErrWrap "lookup"
                      (ErrHandlerError
                         {| Type_ := HandlerErrorTypeNotFound; heFailure := None |}))
                   initial) = Some r
    /\ StatusCode r = 404
    /\ rBody r = "".
Proof.
  destruct (@writeFailure_handler_error_cases Std.inTime Test.baseHandler
              (ErrWrap "lookup"
                 (ErrHandlerError
                    {| Type_ := HandlerErrorTypeNotFound; heFailure := None |}))
              {| Type_ := HandlerErrorTypeNotFound; heFailure := None |}
              404 initial)
    as (r & Hr & Hcode & [Hbody _] & _).
  - reflexivity.
  - reflexivity.
  - cbn. tauto.
  - intros f Hf. discriminate Hf.
  - split; reflexivity.
  - reflexivity.
  - exists r. repeat split; assumption.
Defined.

Lemma writeFailure_kind_without_case_witness :
  let zero := {| Type_ := ""; heFailure := Some (FailureWithMessage "foo") |} in
  let internal := {| Type_ := HandlerErrorTypeInternal;
                     heFailure := Some (FailureWithMessage "foo") |} in
  response_of (@writeFailure Std.inTime Test.baseHandler (ErrHandlerError zero) initial)
  = response_of (@writeFailure Std.inTime Test.baseHandler (ErrHandlerError internal)
                   initial).
Proof.
  intros zero internal.
  apply (@writeFailure_kind_without_case Std.inTime Test.baseHandler
           (ErrHandlerError zero) zero initial).
  - reflexivity.
  - reflexivity.
  - cbn. intros H.
    repeat (destruct H as [H | H]; [discriminate H|]). exact H.
Defined.

Lemma cancelOperation_accepted_witness :
  response_of (@cancelOperation Std.inTime (Test.server Std.inTime (AnyValue VNil, None))
                 (Fixture.request "/f%2Fo%2Fo/a%2Fsync/cancel" ∅) initial)
  = Some {| StatusCode := 202; rHeader := ∅; rBody := "" |}
  /\ effects_of (@cancelOperation Std.inTime
                   (Test.server Std.inTime (AnyValue VNil, None))
                   (Fixture.request "/f%2Fo%2Fo/a%2Fsync/cancel" ∅) initial)
     = [ EvCall (CallCancelOperation RequestContext "f/o/o" "a/sync"
                   {| coHeader := Fixture.userAgent |});
         EvWriteHeader 202 ].
Proof.
  apply (@cancelOperation_accepted Std.inTime
           (Test.server Std.inTime (AnyValue VNil, None))
           (Test.handler (AnyValue VNil, None))
           (Fixture.request "/f%2Fo%2Fo/a%2Fsync/cancel" ∅)
           "/f%2Fo%2Fo/" "a%2Fsync" "a/sync" "f/o/o" initial).
  - vm_compute. reflexivity.
  - vm_compute. reflexivity.
  - vm_compute. reflexivity.
  - reflexivity.
  - reflexivity.
  - split; reflexivity.
Defined.

Lemma getOperationInfo_ok_witness :
  exists b,
    Std.Marshal_OperationInfo {| ID := "a/sync"; State := "running" |} = inl b
    /\ response_of (@getOperationInfo Std.inTime
                      (Test.server Std.inTime (AnyValue VNil, None))
                      (Fixture.request "/f%2Fo%2Fo/a%2Fsync" ∅) initial)
       = Some {| StatusCode := 200;
                 rHeader := Header_Set ∅ headerContentType contentTypeJSON;
                 rBody := b |}.
Proof.
  eexists. split; [vm_compute; reflexivity|].
  apply (@getOperationInfo_ok Std.inTime
           (Test.server Std.inTime (AnyValue VNil, None))
           (Test.handler (AnyValue VNil, None))
           (Fixture.request "/f%2Fo%2Fo/a%2Fsync" ∅)
           "/f%2Fo%2Fo/" "a%2Fsync" "a/sync" "f/o/o"
           {| ID := "a/sync"; State := "running" |}).
  - vm_compute. reflexivity.
  - vm_compute. reflexivity.
  - vm_compute. reflexivity.
  - reflexivity.
  - reflexivity.
  - vm_compute. reflexivity.
  - split; reflexivity.
  - reflexivity.
Defined.



Lemma getOperationResult_long_poll_context_witness :
  exists tail,
    effects_of (@getOperationResult Std.inTime
                  (@NewHTTPHandler Std.inTime
                     (Fixture.optionsOf (Some (Test.handler (AnyValue VNil, None)))))
                  (Test.getResult {[ "wait" := ["2h"] ]}) initial)
    = EvCall (CallGetOperationResult (WithTimeout RequestContext time_Minute)
                "f/o/o" "a/sync"
                {| grHeader := Fixture.userAgent; Wait := 7200000000000 |}) :: tail.
Proof.
  apply (@getOperationResult_long_poll_context Std.inTime
           (Fixture.optionsOf (Some (Test.handler (AnyValue VNil, None))))
           (Test.handler (AnyValue VNil, None))
           (Test.getResult {[ "wait" := ["2h"] ]})
           "/f%2Fo%2Fo/" "a%2Fsync" "a/sync" "f/o/o" 7200000000000 initial).
  - vm_compute. reflexivity.
  - vm_compute. reflexivity.
  - vm_compute. reflexivity.
  - vm_compute. discriminate.
  - vm_compute. reflexivity.
  - reflexivity.
Defined.

Lemma endpoints_without_handler_witness :
  let h := @NewHTTPHandler Std.inTime (Fixture.optionsOf None) in
  response_of (@startOperation Std.inTime h Fixture.start initial) = None
  /\ response_of (@getOperationResult Std.inTime h (Test.getResult ∅) initial) = None
  /\ response_of (@getOperationInfo Std.inTime h
                    (Fixture.request "/f%2Fo%2Fo/a%2Fsync" ∅) initial) = None
  /\ response_of (@cancelOperation Std.inTime h
                    (Fixture.request "/f%2Fo%2Fo/a%2Fsync/cancel" ∅) initial) = None.
Proof.
  intros h. split; [|split; [|split]].
  - destruct (@endpoints_without_handler Std.inTime (Fixture.optionsOf None)
                Fixture.start initial eq_refl) as (Hstart & _).
    apply Hstart. vm_compute. discriminate.
  - destruct (@endpoints_without_handler Std.inTime (Fixture.optionsOf None)
                (Test.getResult ∅) initial eq_refl) as (_ & Hresult & _).
    apply Hresult; [vm_compute; split; discriminate | left; reflexivity].
  - destruct (@endpoints_without_handler Std.inTime (Fixture.optionsOf None)
                (Fixture.request "/f%2Fo%2Fo/a%2Fsync" ∅) initial eq_refl)
      as (_ & _ & Hinfo & _).
    apply Hinfo. vm_compute. split; discriminate.
  - destruct (@endpoints_without_handler Std.inTime (Fixture.optionsOf None)
                (Fixture.request "/f%2Fo%2Fo/a%2Fsync/cancel" ∅) initial eq_refl)
      as (_ & _ & _ & Hcancel).
    apply Hcancel. vm_compute. split; discriminate.
Defined.

Lemma writeResult_value_witness :
  exists r,
    response_of (@writeResult Std.inTime (Test.server Std.inTime (AnyValue VNil, None))
                   (AnyValue (VString "success")) initial) = Some r
    /\ StatusCode r = 200
    /\ rBody r = Std.quote +:+ "success" +:+ Std.quote
    /\ Header_Get (rHeader r) "content-type" = "application/json".
Proof.
  destruct (@writeResult_value Std.inTime (Test.server Std.inTime (AnyValue VNil, None))
              (VString "success") Std.JSONCodec
              {| sHeader := {[ headerContentType := contentTypeJSON ]};
                 sReader := {| rd_data := Std.quote +:+ "success" +:+ Std.quote;
                               rd_err := None; rd_closer := false |} |}
              initial)
    as (r & Hr & Hcode & Hbody & Hheader).
  - reflexivity.
  - reflexivity.
  - split; reflexivity.
  - reflexivity.
  - exists r. split; [exact Hr|]. split; [exact Hcode|]. split; [exact Hbody|].
    change (Header_Get (rHeader r) "content-type")
      with (Header_Get (rHeader r) headerContentType).
    apply Hheader.
    + reflexivity.
    + intros k' [v' Hk'] _. cbn [sHeader] in Hk'.
      apply lookup_singleton_Some in Hk' as [<- _]. reflexivity.
Defined.

Lemma writeResult_serialize_error_witness :
  let h := {| base := Test.baseHandler;
              options := {| opt_Handler := None; opt_Logger := None;
                            opt_GetResultTimeout := time_Minute;
                            opt_Codec := Some Fixture.failingCodec |} |} in
  response_of (@writeResult Std.inTime h (AnyValue (VString "success")) initial)
  = response_of (@writeFailure Std.inTime Test.baseHandler
                   (ErrHandlerError (newBadRequestError "cannot encode")) initial).
Proof.
  intros h.
  apply (@writeResult_serialize_error Std.inTime h (VString "success")
           Fixture.failingCodec None
           (ErrHandlerError (newBadRequestError "cannot encode")) initial).
  - reflexivity.
  - reflexivity.
Defined.

Lemma startOperation_content_headers_witness :
  exists header,
    contentHeaders (map_to_list (reqHeader Fixture.start)) ∅ initial
    = Returned header initial
    /\ header !! "Content-Type" = Some "application/json"
    /\ header !! "User-Agent" = None.
Proof.
  destruct (startOperation_content_headers (reqHeader Fixture.start) initial)
    as (Hok & _).
  destruct Hok as (header & Hrun & Hlook).
  - intros k Hp Hk. cbn [reqHeader Fixture.start] in Hk.
    apply lookup_insert_Some in Hk as [[_ Hk] | [_ Hk]]; [discriminate Hk|].
    apply lookup_singleton_Some in Hk as [_ Hk]. discriminate Hk.
  - exists header. split; [exact Hrun|]. rewrite !Hlook. split; reflexivity.
Defined.

Lemma startOperation_async_created_witness :
  exists b,
    Std.Marshal_OperationInfo {| ID := "a/sync"; State := "running" |} = inl b
    /\ response_of (@startOperation Std.inTime
                      (Test.server Std.inTime (AnyValue VNil, None))
                      Fixture.start initial)
       = Some {| StatusCode := 201;
                 rHeader := Header_Set ∅ headerContentType contentTypeJSON;
                 rBody := b |}.
Proof.
  eexists. split; [vm_compute; reflexivity|].
  apply (@startOperation_async_created Std.inTime
           (Test.server Std.inTime (AnyValue VNil, None))
           (Test.handler (AnyValue VNil, None))
           Fixture.start "f/o/o" "a/sync"
           {[ "Content-Type" := "application/json" ]}).
  - vm_compute. reflexivity.
  - vm_compute. reflexivity.
  - reflexivity.
  - reflexivity.
  - vm_compute. reflexivity.
  - split; reflexivity.
  - reflexivity.
Defined.
